(** * The future-waiting and listener-counting helpers of the auth testapp

    A shallow embedding of the helpers at the top of
    [auth/testapp/src/common_main.cc]: [WaitForFuture],
    [WaitForSignInFuture], and the two listener classes
    [AuthStateChangeCounter] and [IdTokenChangeCounter].

    The helpers talk to the outside through two functions declared in
    [main.h], [LogMessage] and [ProcessEvents].  Every call to either one is
    recorded, in order, in a trace, so that "how often was the event pump
    invoked" and "which report was emitted" are statements about a list. *)

From Stdlib Require Import ZArith List Ascii String Bool Lia.
From Stdlib Require Import DecimalString DecimalZ DecimalPos.
Import ListNotations.

Local Open Scope string_scope.
Local Open Scope list_scope.
Local Open Scope Z_scope.

(** ** Values exchanged with the SDK *)

(** [firebase::FutureStatus]. *)
Inductive FutureStatus : Type :=
| kFutureStatusComplete
| kFutureStatusPending
| kFutureStatusInvalid.

(** [firebase::auth::AuthError] is an enumeration over [int]; the helpers only
    compare its values and print them with [%d]. *)
Definition AuthError : Type := Z.
Definition kAuthErrorNone : AuthError := 0.
Definition kAuthErrorFailure : AuthError := 1.

(** Pointers are addresses; [nullptr] is address 0. *)
Definition Ptr : Type := Z.
Definition nullptr : Ptr := 0.

Definition INT_MAX : Z := 2147483647.

(** [static_cast<int>] of an [intptr_t]: the low 32 bits, read as signed. *)
Definition static_cast_int (z : Z) : Z :=
  (z + 2147483648) mod 4294967296 - 2147483648.

(** ** The trace of calls into [main.h] *)

(** One variadic argument of [LogMessage].  A [const char*] may be null. *)
Inductive Arg : Type :=
| ArgStr (s : option string)
| ArgInt (n : Z)
| ArgPtr (p : Ptr).

Inductive Event : Type :=
| EvLogMessage (format : string) (args : list Arg)
| EvProcessEvents (msec : Z).

(** The number of event-pump invocations recorded in a trace. *)
Fixpoint polls (t : list Event) : nat :=
  match t with
  | [] => O
  | EvProcessEvents _ :: t' => S (polls t')
  | EvLogMessage _ _ :: t' => polls t'
  end.

(** The reports recorded in a trace, without the pump invocations. *)
Fixpoint reports (t : list Event) : list Event :=
  match t with
  | [] => []
  | EvProcessEvents _ :: t' => reports t'
  | EvLogMessage f a :: t' => EvLogMessage f a :: reports t'
  end.

(** A report is error-classified when its text opens with [ERROR: ]: either
    the format does, or the format opens with a [%s] directive whose argument
    supplies that prefix. *)
Definition error_report (e : Event) : bool :=
  match e with
  | EvLogMessage format args =>
      match format, args with
      | String "%"%char (String "s"%char rest), ArgStr (Some s) :: _ =>
          prefix "ERROR: " (s ++ rest)%string
      | _, _ => prefix "ERROR: " format
      end
  | EvProcessEvents _ => false
  end.

(** The two "completed as expected" reports of [WaitForFuture]. *)
Definition success_report (e : Event) : bool :=
  match e with
  | EvLogMessage format _ => prefix "%s completed as expected" format
  | EvProcessEvents _ => false
  end.

(** The "completed with error" report of [WaitForFuture]. *)
Definition mismatch_report (e : Event) : bool :=
  match e with
  | EvLogMessage format _ => prefix "ERROR: %s completed with error" format
  | EvProcessEvents _ => false
  end.

(** Does a report carry the integer [code] among its arguments? *)
Definition mentions_code (code : Z) (e : Event) : bool :=
  match e with
  | EvLogMessage _ args =>
      existsb (fun a => match a with ArgInt n => n =? code | _ => false end) args
  | EvProcessEvents _ => false
  end.

(** Does a report carry the C string [s] among its arguments? *)
Definition mentions_string (s : option string) (e : Event) : bool :=
  match e with
  | EvLogMessage _ args =>
      existsb (fun a =>
                 match a, s with
                 | ArgStr (Some x), Some y => String.eqb x y
                 | ArgStr None, None => true
                 | _, _ => false
                 end) args
  | EvProcessEvents _ => false
  end.

(** ** A monad for state, trace and missing results

    A computation runs on a state [St] and yields a value, the next state
    and the events it produced.  [None] means the run has no result in the
    model: a loop ran out of fuel, or the C++ behaviour is undefined. *)
Definition M (St A : Type) : Type := St -> option (A * St * list Event).

Definition ret {St A} (a : A) : M St A := fun s => Some (a, s, []).

Definition bind {St A B} (m : M St A) (k : A -> M St B) : M St B :=
  fun s =>
    match m s with
    | None => None
    | Some (a, s1, t1) =>
        match k a s1 with
        | None => None
        | Some (b, s2, t2) => Some (b, s2, t1 ++ t2)
        end
    end.

Definition no_result {St A} : M St A := fun _ => None.
Definition read {St A} (f : St -> A) : M St A := fun s => Some (f s, s, []).
Definition put {St} (s : St) : M St unit := fun _ => Some (tt, s, []).
Definition LogMessage {St} (format : string) (args : list Arg) : M St unit :=
  fun s => Some (tt, s, [EvLogMessage format args]).

Declare Scope harness_scope.
Delimit Scope harness_scope with harness.
Notation "x <- m ;; k" := (bind m (fun x => k))
  (at level 100, m at next level, right associativity) : harness_scope.
Notation "m ;;; k" := (bind m (fun _ => k))
  (at level 100, right associativity) : harness_scope.
Local Open Scope harness_scope.

(** Run [f] on each element, left to right. *)
Fixpoint for_each {St A} (f : A -> M St unit) (l : list A) : M St unit :=
  match l with
  | [] => ret tt
  | a :: l' => f a ;;; for_each f l'
  end.

(** ** Waiting for a future *)

Section Wait.

(** Everything outside the helpers: the SDK's futures, the auth object,
    the platform's message loop. *)
Variable World : Type.

(** [ProcessEvents(msec)] of [main.h]: lets the outside run for a while and
    tells whether the application should quit. *)
Variable pump : Z -> World -> bool * World.

(** A [FutureBase] is a handle on state that lives in the SDK: copying the
    handle copies no state, and each accessor reads what the SDK holds at
    the time of the call. *)
Record FutureBase : Type := {
  status : World -> FutureStatus;
  error : World -> Z;
  error_message : World -> option string
}.

(** [Future<User*>]: a [FutureBase] whose [result()] is a pointer to the
    [User*] it holds, null when there is none. *)
Record Future_User : Type := {
  base :> FutureBase;
  result : World -> option Ptr
}.

Record Auth : Type := {
  current_user : World -> Ptr
}.

Definition ProcessEvents (msec : Z) : M World bool :=
  fun w => let (quit, w') := pump msec w in
           Some (quit, w', [EvProcessEvents msec]).

(** The [while] loop of [WaitForFuture]; the value is [true] when the loop
    was left through its [return true]. *)
Fixpoint wait_while_pending (fuel : nat) (future : FutureBase) : M World bool :=
  match fuel with
  | O => no_result
  | S fuel' =>
      st <- read (status future) ;;
      match st with
      | kFutureStatusPending =>
          quit <- ProcessEvents 100 ;;
          if quit then ret true else wait_while_pending fuel' future
      | _ => ret false
      end
  end.

Definition WaitForFuture (fuel : nat) (future : FutureBase) (fn : string)
    (expected_error : AuthError) (log_error : bool) : M World bool :=
  st <- read (status future) ;;
  match st with
  | kFutureStatusInvalid =>
      LogMessage "ERROR: Future for %s is invalid" [ArgStr (Some fn)] ;;;
      ret false
  | _ =>
      LogMessage "  Calling %s..." [ArgStr (Some fn)] ;;;
      quit <- wait_while_pending fuel future ;;
      if quit then ret true
      else
        (if log_error then
           err <- read (error future) ;;
           if err =? expected_error then
             msg <- read (error_message future) ;;
             match msg with
             | Some _ =>
                 LogMessage "%s completed as expected" [ArgStr (Some fn)]
             | None =>
                 LogMessage "%s completed as expected, error: %d '%s'"
                            [ArgStr (Some fn); ArgInt err; ArgStr msg]
             end
           else
             msg <- read (error_message future) ;;
             LogMessage "ERROR: %s completed with error: %d, `%s`"
                        [ArgStr (Some fn); ArgInt err; ArgStr msg]
         else ret tt) ;;;
        ret false
  end.

Definition WaitForSignInFuture (fuel : nat) (sign_in_future : Future_User)
    (fn : string) (expected_error : AuthError) (auth : Auth) : M World bool :=
  quit <- WaitForFuture fuel sign_in_future fn expected_error true ;;
  if quit then ret true
  else
    sign_in_user_ptr <- read (result sign_in_future) ;;
    let sign_in_user :=
      match sign_in_user_ptr with None => nullptr | Some u => u end in
    auth_user <- read (current_user auth) ;;
    (if sign_in_user =? auth_user then ret tt
     else LogMessage
            "ERROR: future's user (%x) and current_user (%x) don't match"
            [ArgInt (static_cast_int sign_in_user);
             ArgInt (static_cast_int auth_user)]) ;;;
    ret false.

(** The world after [n] rounds of [ProcessEvents(100)]. *)
Fixpoint pump_n (n : nat) (w : World) : World :=
  match n with
  | O => w
  | S n' => pump_n n' (snd (pump 100 w))
  end.

(** For each of the first [n] rounds the loop finds the future pending and
    the pump, invoked from there, does not ask to quit. *)
Definition still_waiting (future : FutureBase) (w : World) (n : nat) : Prop :=
  forall i, (i < n)%nat ->
    status future (pump_n i w) = kFutureStatusPending /\
    fst (pump 100 (pump_n i w)) = false.

(** What [WaitForFuture] logs once the loop has ended normally. *)
Definition completion_report (future : FutureBase) (fn : string)
    (expected_error : AuthError) (log_error : bool) (w : World) : list Event :=
  if log_error then
    if error future w =? expected_error then
      match error_message future w with
      | Some _ =>
          [EvLogMessage "%s completed as expected" [ArgStr (Some fn)]]
      | None =>
          [EvLogMessage "%s completed as expected, error: %d '%s'"
             [ArgStr (Some fn); ArgInt (error future w); ArgStr None]]
      end
    else
      [EvLogMessage "ERROR: %s completed with error: %d, `%s`"
         [ArgStr (Some fn); ArgInt (error future w);
          ArgStr (error_message future w)]]
  else [].

End Wait.

Arguments status {World} _ _.
Arguments error {World} _ _.
Arguments error_message {World} _ _.
Arguments result {World} _ _.
Arguments base {World} _.
Arguments current_user {World} _ _.
Arguments ProcessEvents {World} pump msec _.
Arguments wait_while_pending {World} pump fuel future _.
Arguments WaitForFuture {World} pump fuel future fn expected_error log_error _.
Arguments WaitForSignInFuture {World} pump fuel sign_in_future fn expected_error auth _.
Arguments pump_n {World} pump n w.
Arguments still_waiting {World} pump future w n.
Arguments completion_report {World} future fn expected_error log_error w.

(** ** The listener classes

    Each class owns one [int].  The listener callback receives an [Auth*] and
    uses it only for [auth->current_user()], whose value at the time of the
    call is the argument [user] here.  Incrementing an [int] that holds
    [INT_MAX] is undefined in C++, so the callback has no result there. *)

Module AuthStateChangeCounter.

Record t : Type := { num_state_changes_ : Z }.

Definition new : t := {| num_state_changes_ := 0 |}.

Definition OnAuthStateChanged (user : Ptr) : M t unit :=
  n <- read num_state_changes_ ;;
  if n =? INT_MAX then no_result
  else
    put {| num_state_changes_ := n + 1 |} ;;;
    LogMessage "OnAuthStateChanged User %p (state changes %d)"
               [ArgPtr user; ArgInt (n + 1)].

Definition CompleteTest (test_name : string)
    (min_state_changes max_state_changes : Z) : M t unit :=
  n <- read num_state_changes_ ;;
  let success := (min_state_changes <=? n) && (n <=? max_state_changes) in
  LogMessage "%sAuthStateListener called %d time%s on %s."
             [ArgStr (Some (if success then "" else "ERROR: "));
              ArgInt n;
              ArgStr (Some (if n =? 1 then "" else "s"));
              ArgStr (Some test_name)] ;;;
  put {| num_state_changes_ := 0 |}.

(** The two-argument overload [CompleteTest(test_name, expected)]. *)
Definition CompleteTest_exact (test_name : string)
    (expected_state_changes : Z) : M t unit :=
  CompleteTest test_name expected_state_changes expected_state_changes.

End AuthStateChangeCounter.

Module IdTokenChangeCounter.

Record t : Type := { num_token_changes_ : Z }.

Definition new : t := {| num_token_changes_ := 0 |}.

Definition OnIdTokenChanged (user : Ptr) : M t unit :=
  n <- read num_token_changes_ ;;
  if n =? INT_MAX then no_result
  else
    put {| num_token_changes_ := n + 1 |} ;;;
    LogMessage "OnIdTokenChanged User %p (token changes %d)"
               [ArgPtr user; ArgInt (n + 1)].

Definition CompleteTest (test_name : string)
    (min_token_changes max_token_changes : Z) : M t unit :=
  n <- read num_token_changes_ ;;
  let success := (min_token_changes <=? n) && (n <=? max_token_changes) in
  LogMessage "%sIdTokenListener called %d time%s on %s."
             [ArgStr (Some (if success then "" else "ERROR: "));
              ArgInt n;
              ArgStr (Some (if n =? 1 then "" else "s"));
              ArgStr (Some test_name)] ;;;
  put {| num_token_changes_ := 0 |}.

(** The two-argument overload [CompleteTest(test_name, token_changes)]. *)
Definition CompleteTest_exact (test_name : string)
    (token_changes : Z) : M t unit :=
  CompleteTest test_name token_changes token_changes.

End IdTokenChangeCounter.

(** ** A scripted world

    A concrete outside for running the helpers: the SDK's state is a
    snapshot, and each round of the event pump consumes one entry of a
    script, which says whether to quit and what the SDK holds afterwards.
    When the script is used up the pump changes nothing. *)

Module Scripted.

Record Snapshot : Type := {
  snap_status : FutureStatus;
  snap_error : Z;
  snap_error_message : option string;
  snap_result : option Ptr;
  snap_current_user : Ptr
}.

Record World : Type := {
  now : Snapshot;
  script : list (bool * Snapshot)
}.

Definition pump (msec : Z) (w : World) : bool * World :=
  match script w with
  | [] => (false, w)
  | (quit, s) :: rest => (quit, {| now := s; script := rest |})
  end.

Definition future : Future_User World := {|
  base := {| status := fun w => snap_status (now w);
             error := fun w => snap_error (now w);
             error_message := fun w => snap_error_message (now w) |};
  result := fun w => snap_result (now w)
|}.

Definition auth : Auth World := {|
  current_user := fun w => snap_current_user (now w)
|}.

Definition pending : Snapshot := {|
  snap_status := kFutureStatusPending;
  snap_error := 0;
  snap_error_message := None;
  snap_result := None;
  snap_current_user := nullptr
|}.

Definition invalid : Snapshot := {|
  snap_status := kFutureStatusInvalid;
  snap_error := 0;
  snap_error_message := None;
  snap_result := None;
  snap_current_user := nullptr
|}.

(** Signed in: the future holds the user at address 4096 and so does
    [auth]. *)
Definition signed_in : Snapshot := {|
  snap_status := kFutureStatusComplete;
  snap_error := kAuthErrorNone;
  snap_error_message := Some "";
  snap_result := Some 4096;
  snap_current_user := 4096
|}.

(** The future holds the user at 4096 while [auth] reports another one. *)
Definition signed_in_other : Snapshot := {|
  snap_status := kFutureStatusComplete;
  snap_error := kAuthErrorNone;
  snap_error_message := Some "";
  snap_result := Some 4096;
  snap_current_user := 8192
|}.

Definition failed : Snapshot := {|
  snap_status := kFutureStatusComplete;
  snap_error := kAuthErrorFailure;
  snap_error_message := Some "bad password";
  snap_result := None;
  snap_current_user := nullptr
|}.

Definition start (s : Snapshot) (ticks : list (bool * Snapshot)) : World :=
  {| now := s; script := ticks |}.

End Scripted.

(** ** Further helpers of [common_main.cc] *)

Definition kWaitIntervalMs : Z := 300.
Definition kPhoneAuthCodeSendWaitMs : Z := 600000.
Definition kPhoneAuthCompletionWaitMs : Z := 8000.

(** [operator<<] on an integer: its decimal digits, with a leading minus
    sign when negative. *)
Definition decimal (z : Z) : string :=
  DecimalString.NilZero.string_of_int (Z.to_int z).

(** [CreateNewEmail()]; [now] is what [std::time(0)] returns. *)
Definition CreateNewEmail (now : Z) : string :=
  ("random_" ++ decimal now ++ "@gmail.com")%string.

(** [strcmp] of the C library: zero exactly on equal strings, and otherwise
    signed like the first difference. *)
Definition strcmp (a b : string) : Z :=
  match String.compare a b with
  | Eq => 0
  | Lt => -1
  | Gt => 1
  end.

Definition ExpectFalse {St} (test : string) (value : bool) : M St unit :=
  if value
  then LogMessage "ERROR: %s is true instead of false" [ArgStr (Some test)]
  else LogMessage "%s is false, as expected" [ArgStr (Some test)].

Definition ExpectTrue {St} (test : string) (value : bool) : M St unit :=
  if value
  then LogMessage "%s is true, as expected" [ArgStr (Some test)]
  else LogMessage "ERROR: %s is false instead of true" [ArgStr (Some test)].

Definition ExpectStringsEqual {St} (test expected actual : string)
    : M St unit :=
  if strcmp expected actual =? 0
  then LogMessage "%s is '%s' as expected"
         [ArgStr (Some test); ArgStr (Some actual)]
  else LogMessage "ERROR: %s is '%s' instead of '%s'"
         [ArgStr (Some test); ArgStr (Some actual); ArgStr (Some expected)].

(** A call into the SDK: it may change the world and logs nothing through
    [main.h]. *)
Definition sdk {World A} (f : World -> A * World) : M World A :=
  fun w => let (a, w') := f w in Some (a, w', []).

Section SignOut.

Variable World : Type.
Variable pump : Z -> World -> bool * World.

(** The world after [n] rounds of [ProcessEvents(msec)]. *)
Fixpoint rounds (msec : Z) (n : nat) (w : World) : World :=
  match n with
  | O => w
  | S n' => rounds msec n' (snd (pump msec w))
  end.

(** The [while] loop of [WaitForSignOut]; [true] when left through its
    [return true]. *)
Fixpoint wait_while_signed_in (fuel : nat) (auth : Auth World)
    : M World bool :=
  match fuel with
  | O => no_result
  | S fuel' =>
      user <- read (current_user auth) ;;
      if user =? nullptr then ret false
      else
        quit <- ProcessEvents pump 100 ;;
        if quit then ret true else wait_while_signed_in fuel' auth
  end.

Definition WaitForSignOut (fuel : nat) (auth : Auth World) : M World bool :=
  quit <- wait_while_signed_in fuel auth ;;
  if quit then ret true
  else
    ProcessEvents pump 1000 ;;;
    ret false.

(** For each of the first [n] rounds a user is still signed in and the pump
    does not ask to quit. *)
Definition still_signed_in (auth : Auth World) (w : World) (n : nat) : Prop :=
  forall i, (i < n)%nat ->
    current_user auth (rounds 100 i w) <> nullptr /\
    fst (pump 100 (rounds 100 i w)) = false.

End SignOut.

Arguments rounds {World} pump msec n w.
Arguments wait_while_signed_in {World} pump fuel auth _.
Arguments WaitForSignOut {World} pump fuel auth _.
Arguments still_signed_in {World} pump auth w n.

(** ** [UserLogin] *)

Section UserLoginModel.

Variable World : Type.
Variable pump : Z -> World -> bool * World.

(** The SDK's [Credential] and the calls [UserLogin] makes into the SDK. *)
Variable Credential : Type.
Variable CreateUserWithEmailAndPassword :
  Auth World -> string -> string -> World -> Future_User World * World.
Variable EmailAuthProvider_GetCredential : string -> string -> Credential.
Variable SignInWithCredential :
  Auth World -> Credential -> World -> Future_User World * World.
Variable User_Delete : Ptr -> World -> FutureBase World * World.

Record UserLogin : Type := {
  auth_ : Auth World;
  email_ : string;
  password_ : string;
  user_ : Ptr;
  log_errors_ : bool
}.

(** [UserLogin(auth, email, password)]. *)
Definition UserLogin_new (auth : Auth World) (email password : string)
    : UserLogin :=
  {| auth_ := auth; email_ := email; password_ := password;
     user_ := nullptr; log_errors_ := true |}.

Definition set_user (self : UserLogin) (u : Ptr) : UserLogin :=
  {| auth_ := auth_ self; email_ := email_ self;
     password_ := password_ self; user_ := u;
     log_errors_ := log_errors_ self |}.

Definition set_log_errors (self : UserLogin) (b : bool) : UserLogin :=
  {| auth_ := auth_ self; email_ := email_ self;
     password_ := password_ self; user_ := user_ self;
     log_errors_ := b |}.

Definition UserLogin_Register (fuel : nat) (self : UserLogin)
    : M World UserLogin :=
  register_test_account <-
    sdk (CreateUserWithEmailAndPassword (auth_ self) (email_ self)
           (password_ self)) ;;
  WaitForSignInFuture pump fuel register_test_account
    "CreateUserWithEmailAndPassword() to create temp user"
    kAuthErrorNone (auth_ self) ;;;
  r <- read (result register_test_account) ;;
  ret (set_user self match r with Some u => u | None => nullptr end).

Definition UserLogin_Login (fuel : nat) (self : UserLogin) : M World unit :=
  let email_cred :=
    EmailAuthProvider_GetCredential (email_ self) (password_ self) in
  sign_in_cred <- sdk (SignInWithCredential (auth_ self) email_cred) ;;
  WaitForSignInFuture pump fuel sign_in_cred
    "Auth::SignInWithCredential() for UserLogin"
    kAuthErrorNone (auth_ self) ;;;
  ret tt.

Definition UserLogin_Delete (fuel : nat) (self : UserLogin)
    : M World UserLogin :=
  (if user_ self =? nullptr then ret tt
   else
     delete_future <- sdk (User_Delete (user_ self)) ;;
     st <- read (status delete_future) ;;
     delete_future <-
       match st with
       | kFutureStatusInvalid =>
           UserLogin_Login fuel self ;;;
           sdk (User_Delete (user_ self))
       | _ => ret delete_future
       end ;;
     WaitForFuture pump fuel delete_future "User::Delete()" kAuthErrorNone
       (log_errors_ self) ;;;
     ret tt) ;;;
  ret (set_user self nullptr).

(** [~UserLogin()]; the value is the object as the destructor leaves it. *)
Definition UserLogin_destroy (fuel : nat) (self : UserLogin)
    : M World UserLogin :=
  if user_ self =? nullptr then ret self
  else UserLogin_Delete fuel (set_log_errors self false).

End UserLoginModel.

Arguments auth_ {World} _.
Arguments email_ {World} _.
Arguments password_ {World} _.
Arguments user_ {World} _.
Arguments log_errors_ {World} _.
Arguments UserLogin_new {World} auth email password.
Arguments set_user {World} self u.
Arguments set_log_errors {World} self b.
Arguments UserLogin_Register {World} pump CreateUserWithEmailAndPassword
  fuel self _.
Arguments UserLogin_Login {World} pump {Credential}
  EmailAuthProvider_GetCredential SignInWithCredential fuel self _.
Arguments UserLogin_Delete {World} pump {Credential}
  EmailAuthProvider_GetCredential SignInWithCredential User_Delete
  fuel self _.
Arguments UserLogin_destroy {World} pump {Credential}
  EmailAuthProvider_GetCredential SignInWithCredential User_Delete
  fuel self _.

(** ** [PhoneListener] *)

Section PhoneListenerModel.

(** [Credential] and [PhoneAuthProvider::ForceResendingToken] are SDK classes;
    [default_token] is the token a default constructor makes. *)
Variable Credential : Type.
Variable ForceResendingToken : Type.
Variable default_token : ForceResendingToken.

Record PhoneListener : Type := {
  verification_id_ : string;
  force_resending_token_ : ForceResendingToken;
  num_calls_on_verification_complete_ : Z;
  num_calls_on_verification_failed_ : Z;
  num_calls_on_code_sent_ : Z;
  num_calls_on_code_auto_retrieval_time_out_ : Z
}.

Definition PhoneListener_new : PhoneListener :=
  {| verification_id_ := "";
     force_resending_token_ := default_token;
     num_calls_on_verification_complete_ := 0;
     num_calls_on_verification_failed_ := 0;
     num_calls_on_code_sent_ := 0;
     num_calls_on_code_auto_retrieval_time_out_ := 0 |}.

Definition OnVerificationCompleted (credential : Credential)
    : M PhoneListener unit :=
  LogMessage "PhoneListener: successful automatic verification." [] ;;;
  l <- read (fun l => l) ;;
  if num_calls_on_verification_complete_ l =? INT_MAX then no_result
  else
    put {| verification_id_ := verification_id_ l;
           force_resending_token_ := force_resending_token_ l;
           num_calls_on_verification_complete_ :=
             num_calls_on_verification_complete_ l + 1;
           num_calls_on_verification_failed_ :=
             num_calls_on_verification_failed_ l;
           num_calls_on_code_sent_ := num_calls_on_code_sent_ l;
           num_calls_on_code_auto_retrieval_time_out_ :=
             num_calls_on_code_auto_retrieval_time_out_ l |}.

Definition OnVerificationFailed (error : string) : M PhoneListener unit :=
  LogMessage "ERROR: PhoneListener verification failed with error, %s"
    [ArgStr (Some error)] ;;;
  l <- read (fun l => l) ;;
  if num_calls_on_verification_failed_ l =? INT_MAX then no_result
  else
    put {| verification_id_ := verification_id_ l;
           force_resending_token_ := force_resending_token_ l;
           num_calls_on_verification_complete_ :=
             num_calls_on_verification_complete_ l;
           num_calls_on_verification_failed_ :=
             num_calls_on_verification_failed_ l + 1;
           num_calls_on_code_sent_ := num_calls_on_code_sent_ l;
           num_calls_on_code_auto_retrieval_time_out_ :=
             num_calls_on_code_auto_retrieval_time_out_ l |}.

Definition OnCodeSent (verification_id : string)
    (force_resending_token : ForceResendingToken) : M PhoneListener unit :=
  LogMessage "PhoneListener: code sent. verification_id=%s"
    [ArgStr (Some verification_id)] ;;;
  l <- read (fun l => l) ;;
  if num_calls_on_code_sent_ l =? INT_MAX then no_result
  else
    put {| verification_id_ := verification_id;
           force_resending_token_ := force_resending_token;
           num_calls_on_verification_complete_ :=
             num_calls_on_verification_complete_ l;
           num_calls_on_verification_failed_ :=
             num_calls_on_verification_failed_ l;
           num_calls_on_code_sent_ := num_calls_on_code_sent_ l + 1;
           num_calls_on_code_auto_retrieval_time_out_ :=
             num_calls_on_code_auto_retrieval_time_out_ l |}.

Definition OnCodeAutoRetrievalTimeOut (verification_id : string)
    : M PhoneListener unit :=
  LogMessage "PhoneListener: auto retrieval timeout. verification_id=%s"
    [ArgStr (Some verification_id)] ;;;
  l <- read (fun l => l) ;;
  if num_calls_on_code_auto_retrieval_time_out_ l =? INT_MAX then no_result
  else
    put {| verification_id_ := verification_id;
           force_resending_token_ := force_resending_token_ l;
           num_calls_on_verification_complete_ :=
             num_calls_on_verification_complete_ l;
           num_calls_on_verification_failed_ :=
             num_calls_on_verification_failed_ l;
           num_calls_on_code_sent_ := num_calls_on_code_sent_ l;
           num_calls_on_code_auto_retrieval_time_out_ :=
             num_calls_on_code_auto_retrieval_time_out_ l + 1 |}.

(** One call the SDK makes on a listener. *)
Inductive PhoneCallback : Type :=
| VerificationCompleted (credential : Credential)
| VerificationFailed (error : string)
| CodeSent (verification_id : string)
    (force_resending_token : ForceResendingToken)
| CodeAutoRetrievalTimeOut (verification_id : string).

Definition deliver (cb : PhoneCallback) : M PhoneListener unit :=
  match cb with
  | VerificationCompleted c => OnVerificationCompleted c
  | VerificationFailed e => OnVerificationFailed e
  | CodeSent id token => OnCodeSent id token
  | CodeAutoRetrievalTimeOut id => OnCodeAutoRetrievalTimeOut id
  end.

Definition is_completed (cb : PhoneCallback) : bool :=
  match cb with VerificationCompleted _ => true | _ => false end.
Definition is_failed (cb : PhoneCallback) : bool :=
  match cb with VerificationFailed _ => true | _ => false end.
Definition is_code_sent (cb : PhoneCallback) : bool :=
  match cb with CodeSent _ _ => true | _ => false end.
Definition is_time_out (cb : PhoneCallback) : bool :=
  match cb with CodeAutoRetrievalTimeOut _ => true | _ => false end.

(** How many of the calls satisfy [p], as an [int] value. *)
Definition calls (p : PhoneCallback -> bool) (cbs : list PhoneCallback) : Z :=
  Z.of_nat (List.length (filter p cbs)).

(** The verification id of the latest call that carries one, [id0] when
    there is none. *)
Fixpoint latest_id (id0 : string) (cbs : list PhoneCallback) : string :=
  match cbs with
  | [] => id0
  | CodeSent id _ :: cbs' => latest_id id cbs'
  | CodeAutoRetrievalTimeOut id :: cbs' => latest_id id cbs'
  | _ :: cbs' => latest_id id0 cbs'
  end.

(** The token of the latest [OnCodeSent], [t0] when there is none. *)
Fixpoint latest_token (t0 : ForceResendingToken) (cbs : list PhoneCallback)
    : ForceResendingToken :=
  match cbs with
  | [] => t0
  | CodeSent _ token :: cbs' => latest_token token cbs'
  | _ :: cbs' => latest_token t0 cbs'
  end.

End PhoneListenerModel.

Arguments verification_id_ {ForceResendingToken} _.
Arguments force_resending_token_ {ForceResendingToken} _.
Arguments num_calls_on_verification_complete_ {ForceResendingToken} _.
Arguments num_calls_on_verification_failed_ {ForceResendingToken} _.
Arguments num_calls_on_code_sent_ {ForceResendingToken} _.
Arguments num_calls_on_code_auto_retrieval_time_out_ {ForceResendingToken} _.
Arguments PhoneListener_new {ForceResendingToken} default_token.
Arguments OnVerificationCompleted {Credential ForceResendingToken}
  credential _.
Arguments OnVerificationFailed {ForceResendingToken} error _.
Arguments OnCodeSent {ForceResendingToken} verification_id
  force_resending_token _.
Arguments OnCodeAutoRetrievalTimeOut {ForceResendingToken} verification_id _.
Arguments VerificationCompleted {Credential ForceResendingToken} credential.
Arguments VerificationFailed {Credential ForceResendingToken} error.
Arguments CodeSent {Credential ForceResendingToken} verification_id
  force_resending_token.
Arguments CodeAutoRetrievalTimeOut {Credential ForceResendingToken}
  verification_id.
Arguments deliver {Credential ForceResendingToken} cb _.
Arguments is_completed {Credential ForceResendingToken} cb.
Arguments is_failed {Credential ForceResendingToken} cb.
Arguments is_code_sent {Credential ForceResendingToken} cb.
Arguments is_time_out {Credential ForceResendingToken} cb.
Arguments calls {Credential ForceResendingToken} p cbs.
Arguments latest_id {Credential ForceResendingToken} id0 cbs.
Arguments latest_token {Credential ForceResendingToken} t0 cbs.

(** ** The phone-verification waits of [common_main] *)

Section PhoneWait.

Variable World : Type.
Variable pump : Z -> World -> bool * World.
Variable ForceResendingToken : Type.

(** The listener is a local object of [common_main] whose address the SDK
    holds: the SDK calls it while events are processed, so what the loops
    read is part of the world. *)
Variable listener : World -> PhoneListener ForceResendingToken.

(** Both loops have the shape
    [while (waiting) { if (wait_ms > budget) break; ProcessEvents(
    kWaitIntervalMs); wait_ms += kWaitIntervalMs; LogMessage("."); }];
    the value is [wait_ms] when the loop is left. *)
Fixpoint wait_with_budget (fuel : nat)
    (waiting : PhoneListener ForceResendingToken -> bool) (budget : Z)
    (wait_ms : Z) : M World Z :=
  match fuel with
  | O => no_result
  | S fuel' =>
      l <- read listener ;;
      if waiting l then
        if wait_ms >? budget then ret wait_ms
        else
          ProcessEvents pump kWaitIntervalMs ;;;
          LogMessage "." [] ;;;
          wait_with_budget fuel' waiting budget (wait_ms + kWaitIntervalMs)
      else ret wait_ms
  end.

(** The loop that waits for [OnCodeSent()]. *)
Definition wait_for_code_sent (fuel : nat) (wait_ms : Z) : M World Z :=
  wait_with_budget fuel
    (fun l => (num_calls_on_verification_complete_ l =? 0)
              && (num_calls_on_verification_failed_ l =? 0)
              && (num_calls_on_code_sent_ l =? 0))
    kPhoneAuthCodeSendWaitMs wait_ms.

(** The loop that waits for one of the other callbacks. *)
Definition wait_for_completion (fuel : nat) (wait_ms : Z) : M World Z :=
  wait_with_budget fuel
    (fun l => (num_calls_on_verification_complete_ l =? 0)
              && (num_calls_on_verification_failed_ l =? 0)
              && (num_calls_on_code_auto_retrieval_time_out_ l =? 0))
    kPhoneAuthCompletionWaitMs wait_ms.

(** How many rounds a loop with [budget] can still make from [wait_ms]. *)
Definition rounds_left (budget wait_ms : Z) : nat :=
  if wait_ms >? budget then O
  else Z.to_nat ((budget - wait_ms) / kWaitIntervalMs + 1).

End PhoneWait.

Arguments wait_with_budget {World} pump {ForceResendingToken} listener
  fuel waiting budget wait_ms _.
Arguments wait_for_code_sent {World} pump {ForceResendingToken} listener
  fuel wait_ms _.
Arguments wait_for_completion {World} pump {ForceResendingToken} listener
  fuel wait_ms _.

(** A scripted world for the phone waits: the listener as it is now, and
    what it becomes with each round of the event pump. *)

Module ScriptedPhone.

Record World : Type := {
  now : PhoneListener unit;
  script : list (bool * PhoneListener unit)
}.

Definition pump (msec : Z) (w : World) : bool * World :=
  match script w with
  | [] => (false, w)
  | (quit, l) :: rest => (quit, {| now := l; script := rest |})
  end.

Definition idle : PhoneListener unit := PhoneListener_new tt.

Definition code_sent : PhoneListener unit :=
  {| verification_id_ := "id-1";
     force_resending_token_ := tt;
     num_calls_on_verification_complete_ := 0;
     num_calls_on_verification_failed_ := 0;
     num_calls_on_code_sent_ := 1;
     num_calls_on_code_auto_retrieval_time_out_ := 0 |}.

Definition start (l : PhoneListener unit)
    (ticks : list (bool * PhoneListener unit)) : World :=
  {| now := l; script := ticks |}.

End ScriptedPhone.

(** The SDK calls of [UserLogin] on the scripted world: every call hands out
    the scripted future and changes nothing. *)

Module ScriptedLogin.

Definition CreateUserWithEmailAndPassword (auth : Auth Scripted.World)
    (email password : string) (w : Scripted.World)
    : Future_User Scripted.World * Scripted.World :=
  (Scripted.future, w).

Definition GetCredential (email password : string) : string * string :=
  (email, password).

Definition SignInWithCredential (auth : Auth Scripted.World)
    (credential : string * string) (w : Scripted.World)
    : Future_User Scripted.World * Scripted.World :=
  (Scripted.future, w).

Definition User_Delete (user : Ptr) (w : Scripted.World)
    : FutureBase Scripted.World * Scripted.World :=
  (base Scripted.future, w).

Definition login (user : Ptr) (log_errors : bool)
    : UserLogin Scripted.World :=
  {| auth_ := Scripted.auth; email_ := "a@example.com";
     password_ := "secret"; user_ := user; log_errors_ := log_errors |}.

End ScriptedLogin.

(** * Properties *)

(** ** Running the polling loop *)

Section WaitFacts.

Variable World : Type.
Variable pump : Z -> World -> bool * World.
Variable future : FutureBase World.

Lemma pump_n_succ (n : nat) (w : World) :
  pump_n pump (S n) w = snd (pump 100 (pump_n pump n w)).
Proof.
  revert w. induction n as [|n IH]; intro w.
  - reflexivity.
  - change (pump_n pump (S (S n)) w)
      with (pump_n pump (S n) (snd (pump 100 w))).
    rewrite IH. reflexivity.
Qed.

Lemma still_waiting_tail (w : World) (n : nat) :
  still_waiting pump future w (S n) ->
  still_waiting pump future (snd (pump 100 w)) n.
Proof.
  intros H i Hi. apply (H (S i)). lia.
Qed.

(** One iteration of the loop, spelled out. *)
Lemma wait_while_pending_step (fuel : nat) (w : World) :
  wait_while_pending pump (S fuel) future w =
  match status future w with
  | kFutureStatusPending =>
      if fst (pump 100 w)
      then Some (true, snd (pump 100 w), [EvProcessEvents 100])
      else match wait_while_pending pump fuel future (snd (pump 100 w)) with
           | None => None
           | Some (b, w', t) => Some (b, w', EvProcessEvents 100 :: t)
           end
  | _ => Some (false, w, [])
  end.
Proof.
  cbn [wait_while_pending]. unfold bind, read, ProcessEvents, ret.
  destruct (status future w); try reflexivity.
  destruct (pump 100 w) as [quit w1]. cbn [fst snd].
  destruct quit; [reflexivity|].
  destruct (wait_while_pending pump fuel future w1) as [[[b w2] t]|];
    reflexivity.
Qed.

(** [n] quiet rounds cost [n] units of fuel and leave [n] pump events. *)
Lemma wait_while_pending_skip (n fuel : nat) (w : World) :
  still_waiting pump future w n ->
  wait_while_pending pump (n + fuel) future w =
  match wait_while_pending pump fuel future (pump_n pump n w) with
  | None => None
  | Some (b, w', t) => Some (b, w', repeat (EvProcessEvents 100) n ++ t)
  end.
Proof.
  revert w. induction n as [|n IH]; intros w H.
  - cbn [Nat.add pump_n repeat app].
    destruct (wait_while_pending pump fuel future w) as [[[b w'] t]|];
      reflexivity.
  - destruct (H O ltac:(lia)) as [Hst Hq]. cbn [pump_n] in Hst, Hq.
    cbn [Nat.add]. rewrite wait_while_pending_step, Hst, Hq.
    rewrite (IH _ (still_waiting_tail _ _ H)). cbn [pump_n].
    destruct (wait_while_pending pump fuel future
                (pump_n pump n (snd (pump 100 w)))) as [[[b w'] t]|];
      reflexivity.
Qed.

(** The loop ends without a quit request after [n] rounds. *)
Lemma wait_while_pending_done (n fuel : nat) (w : World) :
  still_waiting pump future w n ->
  status future (pump_n pump n w) <> kFutureStatusPending ->
  (n < fuel)%nat ->
  wait_while_pending pump fuel future w =
  Some (false, pump_n pump n w, repeat (EvProcessEvents 100) n).
Proof.
  intros H Hst Hfuel.
  replace fuel with (n + S (fuel - S n))%nat by lia.
  rewrite (wait_while_pending_skip _ _ _ H), wait_while_pending_step.
  destruct (status future (pump_n pump n w));
    try congruence; rewrite app_nil_r; reflexivity.
Qed.

(** The loop is left by a quit request in round [n + 1]. *)
Lemma wait_while_pending_quit (n fuel : nat) (w : World) :
  still_waiting pump future w n ->
  status future (pump_n pump n w) = kFutureStatusPending ->
  fst (pump 100 (pump_n pump n w)) = true ->
  (n < fuel)%nat ->
  wait_while_pending pump fuel future w =
  Some (true, pump_n pump (S n) w, repeat (EvProcessEvents 100) (S n)).
Proof.
  intros H Hst Hq Hfuel.
  replace fuel with (n + S (fuel - S n))%nat by lia.
  rewrite (wait_while_pending_skip _ _ _ H), wait_while_pending_step.
  rewrite Hst, Hq, pump_n_succ.
  replace (S n) with (n + 1)%nat by lia.
  rewrite repeat_app. reflexivity.
Qed.

(** [WaitForFuture] on a future that is not invalid, in terms of its loop. *)
Lemma WaitForFuture_started (fuel : nat) (fn : string)
    (expected_error : AuthError) (log_error : bool) (w : World) :
  status future w <> kFutureStatusInvalid ->
  WaitForFuture pump fuel future fn expected_error log_error w =
  match wait_while_pending pump fuel future w with
  | None => None
  | Some (true, w', t) =>
      Some (true, w', EvLogMessage "  Calling %s..." [ArgStr (Some fn)] :: t)
  | Some (false, w', t) =>
      Some (false, w',
            EvLogMessage "  Calling %s..." [ArgStr (Some fn)]
            :: t ++ completion_report future fn expected_error log_error w')
  end.
Proof.
  intro Hst.
  unfold WaitForFuture, completion_report, bind, read, ret, LogMessage.
  destruct (status future w); try congruence;
    (destruct (wait_while_pending pump fuel future w) as [[[[|] w'] t]|];
     [ rewrite app_nil_r; reflexivity | | reflexivity ]);
    (destruct log_error; [|cbn; rewrite !app_nil_r; reflexivity]);
    (destruct (error future w' =? expected_error);
     [destruct (error_message future w')|]); cbn;
    rewrite ?app_nil_r; reflexivity.
Qed.

Lemma still_waiting_started (n : nat) (w : World) :
  still_waiting pump future w n ->
  status future (pump_n pump n w) <> kFutureStatusInvalid ->
  status future w <> kFutureStatusInvalid.
Proof.
  intros H Hst. destruct n as [|n]; [exact Hst|].
  destruct (H O ltac:(lia)) as [Hp _]. cbn [pump_n] in Hp.
  rewrite Hp. discriminate.
Qed.

(** A wait whose loop ends normally after [n] rounds. *)
Lemma WaitForFuture_completes (fn : string) (expected_error : AuthError)
    (log_error : bool) (w : World) (n fuel : nat) :
  still_waiting pump future w n ->
  status future (pump_n pump n w) = kFutureStatusComplete ->
  (n < fuel)%nat ->
  WaitForFuture pump fuel future fn expected_error log_error w =
  Some (false, pump_n pump n w,
        EvLogMessage "  Calling %s..." [ArgStr (Some fn)]
        :: repeat (EvProcessEvents 100) n
        ++ completion_report future fn expected_error log_error
             (pump_n pump n w)).
Proof.
  intros H Hst Hfuel.
  rewrite WaitForFuture_started
    by (apply (still_waiting_started n); [exact H | rewrite Hst; discriminate]).
  rewrite (wait_while_pending_done n)
    by (try assumption; rewrite Hst; discriminate).
  reflexivity.
Qed.

(** C1: whenever an invocation of the event pump inside the polling loop
    asks to quit, [WaitForFuture] returns [true] right after that
    invocation: the trace ends with it, nothing about the future in the
    world it leaves is consulted, and no completion report is logged.  With
    [n = 0] the quit request comes in the first round and the pump has been
    invoked exactly once. *)
Theorem WaitForFuture_quit_request (fn : string) (expected_error : AuthError)
    (log_error : bool) (w : World) (n fuel : nat) :
  still_waiting pump future w n ->
  status future (pump_n pump n w) = kFutureStatusPending ->
  fst (pump 100 (pump_n pump n w)) = true ->
  (n < fuel)%nat ->
  WaitForFuture pump fuel future fn expected_error log_error w =
  Some (true, snd (pump 100 (pump_n pump n w)),
        EvLogMessage "  Calling %s..." [ArgStr (Some fn)]
        :: repeat (EvProcessEvents 100) (S n)).
Proof.
  intros H Hst Hq Hfuel.
  rewrite WaitForFuture_started
    by (apply (still_waiting_started n); [exact H | rewrite Hst; discriminate]).
  rewrite (wait_while_pending_quit n) by assumption.
  rewrite pump_n_succ. reflexivity.
Qed.

(** C2: when the future is observed complete after [n] quiet rounds and its
    error code equals the expected one, [WaitForFuture] with logging on
    logs exactly one completion report, a "completed as expected" one, and
    returns [false]. *)
Theorem WaitForFuture_expected_error (fn : string)
    (expected_error : AuthError) (w : World) (n fuel : nat) :
  still_waiting pump future w n ->
  status future (pump_n pump n w) = kFutureStatusComplete ->
  error future (pump_n pump n w) = expected_error ->
  (n < fuel)%nat ->
  exists r : Event,
    WaitForFuture pump fuel future fn expected_error true w =
    Some (false, pump_n pump n w,
          EvLogMessage "  Calling %s..." [ArgStr (Some fn)]
          :: repeat (EvProcessEvents 100) n ++ [r]) /\
    success_report r = true /\
    mismatch_report r = false /\
    r = match error_message future (pump_n pump n w) with
        | Some _ =>
            EvLogMessage "%s completed as expected" [ArgStr (Some fn)]
        | None =>
            EvLogMessage "%s completed as expected, error: %d '%s'"
              [ArgStr (Some fn); ArgInt expected_error; ArgStr None]
        end.
Proof.
  intros H Hst Herr Hfuel.
  rewrite (WaitForFuture_completes _ _ _ _ n) by assumption.
  unfold completion_report. rewrite Herr, Z.eqb_refl.
  destruct (error_message future (pump_n pump n w));
    eexists; repeat split; reflexivity.
Qed.

(** C3, as the code has it: when the future is observed complete after [n]
    quiet rounds and its error code differs from the expected one,
    [WaitForFuture] with logging on logs one error-classified report that
    carries the actual error code and the future's error message, does not
    carry the expected code, and returns [false]. *)
Theorem WaitForFuture_unexpected_error (fn : string)
    (expected_error : AuthError) (w : World) (n fuel : nat) :
  still_waiting pump future w n ->
  status future (pump_n pump n w) = kFutureStatusComplete ->
  error future (pump_n pump n w) <> expected_error ->
  (n < fuel)%nat ->
  let r := EvLogMessage "ERROR: %s completed with error: %d, `%s`"
             [ArgStr (Some fn); ArgInt (error future (pump_n pump n w));
              ArgStr (error_message future (pump_n pump n w))] in
  WaitForFuture pump fuel future fn expected_error true w =
  Some (false, pump_n pump n w,
        EvLogMessage "  Calling %s..." [ArgStr (Some fn)]
        :: repeat (EvProcessEvents 100) n ++ [r]) /\
  mismatch_report r = true /\
  error_report r = true /\
  mentions_code (error future (pump_n pump n w)) r = true /\
  mentions_string (error_message future (pump_n pump n w)) r = true /\
  mentions_code expected_error r = false.
Proof.
  intros H Hst Herr Hfuel r.
  rewrite (WaitForFuture_completes _ _ _ _ n) by assumption.
  unfold completion_report.
  apply Z.eqb_neq in Herr. rewrite Herr.
  repeat split.
  - cbn. rewrite Z.eqb_refl. reflexivity.
  - cbn. destruct (error_message future (pump_n pump n w)) as [m|].
    + rewrite String.eqb_refl, !orb_true_r. reflexivity.
    + reflexivity.
  - cbn. rewrite Herr. reflexivity.
Qed.

(** C5: on a future whose status is invalid, [WaitForFuture] logs one
    error-classified report saying so, never invokes the event pump, leaves
    the world as it was, and returns [false]; no fuel is needed. *)
Theorem WaitForFuture_invalid (fn : string) (expected_error : AuthError)
    (log_error : bool) (w : World) (fuel : nat) :
  status future w = kFutureStatusInvalid ->
  let r := EvLogMessage "ERROR: Future for %s is invalid"
             [ArgStr (Some fn)] in
  WaitForFuture pump fuel future fn expected_error log_error w =
  Some (false, w, [r]) /\
  error_report r = true /\
  polls [r] = O.
Proof.
  intros Hst r. unfold WaitForFuture, bind, read.
  rewrite Hst. repeat split.
Qed.

(** C6: the future is pending, the pump does not ask to quit in its first
    two invocations, the future is still pending after the first and
    complete with the success code after the second: [WaitForFuture],
    expecting success, invokes the pump exactly twice, logs a "completed as
    expected" report and returns [false]. *)
Theorem WaitForFuture_two_polls (fn : string) (w : World) (fuel : nat) :
  let w1 := snd (pump 100 w) in
  let w2 := snd (pump 100 w1) in
  status future w = kFutureStatusPending ->
  fst (pump 100 w) = false ->
  status future w1 = kFutureStatusPending ->
  fst (pump 100 w1) = false ->
  status future w2 = kFutureStatusComplete ->
  error future w2 = kAuthErrorNone ->
  (2 < fuel)%nat ->
  exists r : Event,
    WaitForFuture pump fuel future fn kAuthErrorNone true w =
    Some (false, w2,
          [EvLogMessage "  Calling %s..." [ArgStr (Some fn)];
           EvProcessEvents 100; EvProcessEvents 100; r]) /\
    success_report r = true /\
    polls [EvLogMessage "  Calling %s..." [ArgStr (Some fn)];
           EvProcessEvents 100; EvProcessEvents 100; r] = 2%nat.
Proof.
  intros w1 w2 Hs0 Hq0 Hs1 Hq1 Hs2 Herr Hfuel.
  assert (Hwait : still_waiting pump future w 2).
  { intros i Hi. destruct i as [|[|i]]; [split; assumption .. | lia]. }
  rewrite (WaitForFuture_completes _ _ _ _ 2) by assumption.
  unfold completion_report. cbn [pump_n]. fold w1. fold w2.
  rewrite Herr. cbn [Z.eqb kAuthErrorNone].
  destruct (error_message future w2);
    eexists; repeat split; reflexivity.
Qed.

(** C10: with logging off, a wait that sees the future complete after [n]
    quiet rounds logs nothing after the "Calling" line, whatever the
    future's error code and the expected one are, and returns [false]. *)
Theorem WaitForFuture_log_error_off (fn : string)
    (expected_error : AuthError) (w : World) (n fuel : nat) :
  still_waiting pump future w n ->
  status future (pump_n pump n w) = kFutureStatusComplete ->
  (n < fuel)%nat ->
  WaitForFuture pump fuel future fn expected_error false w =
  Some (false, pump_n pump n w,
        EvLogMessage "  Calling %s..." [ArgStr (Some fn)]
        :: repeat (EvProcessEvents 100) n) /\
  reports (EvLogMessage "  Calling %s..." [ArgStr (Some fn)]
           :: repeat (EvProcessEvents 100) n) =
  [EvLogMessage "  Calling %s..." [ArgStr (Some fn)]].
Proof.
  intros H Hst Hfuel.
  rewrite (WaitForFuture_completes _ _ _ _ n) by assumption.
  cbn [completion_report]. rewrite app_nil_r. split; [reflexivity|].
  cbn [reports]. f_equal.
  clear. induction n as [|n IH]; [reflexivity | exact IH].
Qed.

End WaitFacts.

(** ** The sign-in variant *)

Section SignInFacts.

Variable World : Type.
Variable pump : Z -> World -> bool * World.
Variable sign_in_future : Future_User World.
Variable auth : Auth World.

(** C9: [WaitForSignInFuture] returns what [WaitForFuture] (with logging
    on) returns for the same future, and has a result exactly when that
    call has one.  When the base call returns [true] nothing more happens:
    the traces are equal.  When it returns [false] the variant returns
    [false] too, and a user mismatch between the future and [auth] only
    adds one error report to the trace. *)
Theorem WaitForSignInFuture_returns_base (fn : string)
    (expected_error : AuthError) (fuel : nat) (w : World) :
  let base_run :=
    WaitForFuture pump fuel sign_in_future fn expected_error true w in
  let run :=
    WaitForSignInFuture pump fuel sign_in_future fn expected_error auth w in
  option_map (fun r => fst (fst r)) run =
  option_map (fun r => fst (fst r)) base_run /\
  (forall w' t, base_run = Some (true, w', t) ->
                run = Some (true, w', t)) /\
  (forall w' t, base_run = Some (false, w', t) ->
     let sign_in_user :=
       match result sign_in_future w' with
       | None => nullptr
       | Some u => u
       end in
     let auth_user := current_user auth w' in
     run = Some (false, w',
                 t ++ if sign_in_user =? auth_user then []
                      else [EvLogMessage
                              "ERROR: future's user (%x) and current_user (%x) don't match"
                              [ArgInt (static_cast_int sign_in_user);
                               ArgInt (static_cast_int auth_user)]])).
Proof.
  intros base_run run.
  assert (Hrun : run =
    match base_run with
    | None => None
    | Some (true, w', t) => Some (true, w', t)
    | Some (false, w', t) =>
        Some (false, w',
              t ++ if match result sign_in_future w' with
                      | None => nullptr
                      | Some u => u
                      end =? current_user auth w'
                   then []
                   else [EvLogMessage
                           "ERROR: future's user (%x) and current_user (%x) don't match"
                           [ArgInt (static_cast_int
                                      match result sign_in_future w' with
                                      | None => nullptr
                                      | Some u => u
                                      end);
                            ArgInt (static_cast_int (current_user auth w'))]])
    end).
  { subst run base_run.
    unfold WaitForSignInFuture, bind, read, ret, LogMessage.
    destruct (WaitForFuture pump fuel sign_in_future fn expected_error
                true w) as [[[[|] w1] t1]|];
      [ rewrite app_nil_r; reflexivity | | reflexivity ].
    destruct (_ =? current_user auth w1); cbn;
      rewrite ?app_nil_r; reflexivity. }
  clearbody run base_run. subst run.
  destruct base_run as [[[[|] w1] t1]|]; cbn;
    repeat split; intros w' t E; try discriminate E;
    injection E as <- <-; reflexivity.
Qed.

End SignInFacts.

(** ** The listener classes *)

(** What [CompleteTest] does, read off its definition: one report, then the
    count is zero. *)
Lemma AuthStateChangeCounter_CompleteTest_run
    (test_name : string) (lo hi : Z) (c : AuthStateChangeCounter.t) :
  AuthStateChangeCounter.CompleteTest test_name lo hi c =
  let n := AuthStateChangeCounter.num_state_changes_ c in
  Some (tt, AuthStateChangeCounter.new,
        [EvLogMessage "%sAuthStateListener called %d time%s on %s."
           [ArgStr (Some (if (lo <=? n) && (n <=? hi) then "" else "ERROR: "));
            ArgInt n;
            ArgStr (Some (if n =? 1 then "" else "s"));
            ArgStr (Some test_name)]]).
Proof. reflexivity. Qed.

Lemma IdTokenChangeCounter_CompleteTest_run
    (test_name : string) (lo hi : Z) (c : IdTokenChangeCounter.t) :
  IdTokenChangeCounter.CompleteTest test_name lo hi c =
  let n := IdTokenChangeCounter.num_token_changes_ c in
  Some (tt, IdTokenChangeCounter.new,
        [EvLogMessage "%sIdTokenListener called %d time%s on %s."
           [ArgStr (Some (if (lo <=? n) && (n <=? hi) then "" else "ERROR: "));
            ArgInt n;
            ArgStr (Some (if n =? 1 then "" else "s"));
            ArgStr (Some test_name)]]).
Proof. reflexivity. Qed.

(** One notification below [INT_MAX] adds one to the count. *)
Lemma AuthStateChangeCounter_notified
    (user : Ptr) (c : AuthStateChangeCounter.t) :
  AuthStateChangeCounter.num_state_changes_ c < INT_MAX ->
  AuthStateChangeCounter.OnAuthStateChanged user c =
  Some (tt,
        {| AuthStateChangeCounter.num_state_changes_ :=
             AuthStateChangeCounter.num_state_changes_ c + 1 |},
        [EvLogMessage "OnAuthStateChanged User %p (state changes %d)"
           [ArgPtr user;
            ArgInt (AuthStateChangeCounter.num_state_changes_ c + 1)]]).
Proof.
  intro H. unfold AuthStateChangeCounter.OnAuthStateChanged, bind, read.
  destruct (Z.eqb_spec (AuthStateChangeCounter.num_state_changes_ c) INT_MAX);
    [lia | reflexivity].
Qed.

Lemma IdTokenChangeCounter_notified
    (user : Ptr) (c : IdTokenChangeCounter.t) :
  IdTokenChangeCounter.num_token_changes_ c < INT_MAX ->
  IdTokenChangeCounter.OnIdTokenChanged user c =
  Some (tt,
        {| IdTokenChangeCounter.num_token_changes_ :=
             IdTokenChangeCounter.num_token_changes_ c + 1 |},
        [EvLogMessage "OnIdTokenChanged User %p (token changes %d)"
           [ArgPtr user;
            ArgInt (IdTokenChangeCounter.num_token_changes_ c + 1)]]).
Proof.
  intro H. unfold IdTokenChangeCounter.OnIdTokenChanged, bind, read.
  destruct (Z.eqb_spec (IdTokenChangeCounter.num_token_changes_ c) INT_MAX);
    [lia | reflexivity].
Qed.

(** A run of notifications that stays within [int] adds its length. *)
Lemma AuthStateChangeCounter_notified_all
    (users : list Ptr) (c : AuthStateChangeCounter.t) :
  AuthStateChangeCounter.num_state_changes_ c + Z.of_nat (List.length users)
    <= INT_MAX ->
  exists t,
    for_each AuthStateChangeCounter.OnAuthStateChanged users c =
    Some (tt,
          {| AuthStateChangeCounter.num_state_changes_ :=
               AuthStateChangeCounter.num_state_changes_ c
               + Z.of_nat (List.length users) |}, t) /\
    List.length t = List.length users.
Proof.
  revert c. induction users as [|u users IH]; intros c H.
  - exists []. destruct c as [k]. cbn. rewrite Z.add_0_r. split; reflexivity.
  - cbn [List.length] in H. rewrite Nat2Z.inj_succ in H.
    cbn [for_each]. unfold bind.
    rewrite AuthStateChangeCounter_notified by lia.
    destruct (IH {| AuthStateChangeCounter.num_state_changes_ :=
                      AuthStateChangeCounter.num_state_changes_ c + 1 |})
      as (t & -> & Hlen);
      [cbn [AuthStateChangeCounter.num_state_changes_]; lia|].
    eexists. split.
    + cbn [AuthStateChangeCounter.num_state_changes_ List.length].
      rewrite Nat2Z.inj_succ, <- Z.add_1_l, Z.add_assoc. reflexivity.
    + cbn. rewrite Hlen. reflexivity.
Qed.

Lemma IdTokenChangeCounter_notified_all
    (users : list Ptr) (c : IdTokenChangeCounter.t) :
  IdTokenChangeCounter.num_token_changes_ c + Z.of_nat (List.length users)
    <= INT_MAX ->
  exists t,
    for_each IdTokenChangeCounter.OnIdTokenChanged users c =
    Some (tt,
          {| IdTokenChangeCounter.num_token_changes_ :=
               IdTokenChangeCounter.num_token_changes_ c
               + Z.of_nat (List.length users) |}, t) /\
    List.length t = List.length users.
Proof.
  revert c. induction users as [|u users IH]; intros c H.
  - exists []. destruct c as [k]. cbn. rewrite Z.add_0_r. split; reflexivity.
  - cbn [List.length] in H. rewrite Nat2Z.inj_succ in H.
    cbn [for_each]. unfold bind.
    rewrite IdTokenChangeCounter_notified by lia.
    destruct (IH {| IdTokenChangeCounter.num_token_changes_ :=
                      IdTokenChangeCounter.num_token_changes_ c + 1 |})
      as (t & -> & Hlen);
      [cbn [IdTokenChangeCounter.num_token_changes_]; lia|].
    eexists. split.
    + cbn [IdTokenChangeCounter.num_token_changes_ List.length].
      rewrite Nat2Z.inj_succ, <- Z.add_1_l, Z.add_assoc. reflexivity.
    + cbn. rewrite Hlen. reflexivity.
Qed.

Ltac settle_report :=
  cbn [error_report mentions_code existsb];
  repeat match goal with
         | |- context [?a <=? ?b] => destruct (Z.leb_spec a b)
         end;
  cbn; rewrite ?Z.eqb_refl; repeat split; intros;
  try reflexivity; try lia.

(** C4: after [n] notifications counted from zero (the state a constructor
    and every [CompleteTest] leave behind), with [n] within [int],
    [CompleteTest(test_name, min, max)] logs one report carrying [n]; the
    report is not error-classified when [min <= n <= max] and is
    error-classified otherwise; either way the count is zero afterwards.
    This holds for both listener classes. *)
Theorem CompleteTest_within_range (users : list Ptr) (test_name : string)
    (min_changes max_changes : Z) :
  Z.of_nat (List.length users) <= INT_MAX ->
  let n := Z.of_nat (List.length users) in
  (forall c0, AuthStateChangeCounter.num_state_changes_ c0 = 0 ->
     exists c t r,
       for_each AuthStateChangeCounter.OnAuthStateChanged users c0 =
       Some (tt, c, t) /\
       AuthStateChangeCounter.CompleteTest test_name min_changes max_changes c =
       Some (tt, {| AuthStateChangeCounter.num_state_changes_ := 0 |}, [r]) /\
       (min_changes <= n <= max_changes -> error_report r = false) /\
       (~ min_changes <= n <= max_changes -> error_report r = true) /\
       mentions_code n r = true) /\
  (forall c0, IdTokenChangeCounter.num_token_changes_ c0 = 0 ->
     exists c t r,
       for_each IdTokenChangeCounter.OnIdTokenChanged users c0 =
       Some (tt, c, t) /\
       IdTokenChangeCounter.CompleteTest test_name min_changes max_changes c =
       Some (tt, {| IdTokenChangeCounter.num_token_changes_ := 0 |}, [r]) /\
       (min_changes <= n <= max_changes -> error_report r = false) /\
       (~ min_changes <= n <= max_changes -> error_report r = true) /\
       mentions_code n r = true).
Proof.
  intros Hn n. split; intros c0 H0.
  - destruct (AuthStateChangeCounter_notified_all users c0)
      as (t & Hrun & _); [rewrite H0; exact Hn|].
    rewrite H0, Z.add_0_l in Hrun. fold n in Hrun.
    eexists; exists t; eexists. split; [exact Hrun|].
    rewrite AuthStateChangeCounter_CompleteTest_run.
    cbn [AuthStateChangeCounter.num_state_changes_].
    split; [reflexivity|]. settle_report.
  - destruct (IdTokenChangeCounter_notified_all users c0)
      as (t & Hrun & _); [rewrite H0; exact Hn|].
    rewrite H0, Z.add_0_l in Hrun. fold n in Hrun.
    eexists; exists t; eexists. split; [exact Hrun|].
    rewrite IdTokenChangeCounter_CompleteTest_run.
    cbn [IdTokenChangeCounter.num_token_changes_].
    split; [reflexivity|]. settle_report.
Qed.

(** C7: for both listener classes: a notification on a count below
    [INT_MAX] adds exactly one; [n] notifications on a fresh counter followed
    by [CompleteTest(test_name, n, n)] give a report that is not
    error-classified; every [CompleteTest] leaves the count at zero; and
    [CompleteTest(test_name, 0, 0)] right after that is not error-classified
    either. *)
Theorem CompleteTest_after_notifications :
  ((forall user c,
      AuthStateChangeCounter.num_state_changes_ c < INT_MAX ->
      exists t,
        AuthStateChangeCounter.OnAuthStateChanged user c =
        Some (tt,
              {| AuthStateChangeCounter.num_state_changes_ :=
                   AuthStateChangeCounter.num_state_changes_ c + 1 |}, t)) /\
   (forall users test_name,
      Z.of_nat (List.length users) <= INT_MAX ->
      exists c t r,
        for_each AuthStateChangeCounter.OnAuthStateChanged users
          AuthStateChangeCounter.new = Some (tt, c, t) /\
        AuthStateChangeCounter.num_state_changes_ c =
        Z.of_nat (List.length users) /\
        AuthStateChangeCounter.CompleteTest test_name
          (Z.of_nat (List.length users)) (Z.of_nat (List.length users)) c =
        Some (tt, AuthStateChangeCounter.new, [r]) /\
        error_report r = false) /\
   (forall test_name min_changes max_changes c,
      exists c' r,
        AuthStateChangeCounter.CompleteTest test_name min_changes max_changes c =
        Some (tt, c', [r]) /\
        AuthStateChangeCounter.num_state_changes_ c' = 0 /\
        exists r0,
          AuthStateChangeCounter.CompleteTest test_name 0 0 c' =
          Some (tt, c', [r0]) /\
          error_report r0 = false)) /\
  ((forall user c,
      IdTokenChangeCounter.num_token_changes_ c < INT_MAX ->
      exists t,
        IdTokenChangeCounter.OnIdTokenChanged user c =
        Some (tt,
              {| IdTokenChangeCounter.num_token_changes_ :=
                   IdTokenChangeCounter.num_token_changes_ c + 1 |}, t)) /\
   (forall users test_name,
      Z.of_nat (List.length users) <= INT_MAX ->
      exists c t r,
        for_each IdTokenChangeCounter.OnIdTokenChanged users
          IdTokenChangeCounter.new = Some (tt, c, t) /\
        IdTokenChangeCounter.num_token_changes_ c =
        Z.of_nat (List.length users) /\
        IdTokenChangeCounter.CompleteTest test_name
          (Z.of_nat (List.length users)) (Z.of_nat (List.length users)) c =
        Some (tt, IdTokenChangeCounter.new, [r]) /\
        error_report r = false) /\
   (forall test_name min_changes max_changes c,
      exists c' r,
        IdTokenChangeCounter.CompleteTest test_name min_changes max_changes c =
        Some (tt, c', [r]) /\
        IdTokenChangeCounter.num_token_changes_ c' = 0 /\
        exists r0,
          IdTokenChangeCounter.CompleteTest test_name 0 0 c' =
          Some (tt, c', [r0]) /\
          error_report r0 = false)).
Proof.
  split; (split; [| split]).
  - intros user c H. eexists.
    apply AuthStateChangeCounter_notified. exact H.
  - intros users test_name Hn.
    destruct (AuthStateChangeCounter_notified_all users
                AuthStateChangeCounter.new) as (t & Hrun & _); [exact Hn|].
    eexists; exists t; eexists. split; [exact Hrun|].
    rewrite AuthStateChangeCounter_CompleteTest_run.
    cbn [AuthStateChangeCounter.num_state_changes_
         AuthStateChangeCounter.new Z.add].
    split; [reflexivity|]. split; [reflexivity|].
    cbn [error_report]. rewrite Z.leb_refl. reflexivity.
  - intros test_name lo hi c. do 2 eexists.
    rewrite AuthStateChangeCounter_CompleteTest_run.
    split; [reflexivity|]. split; [reflexivity|].
    eexists. split; reflexivity.
  - intros user c H. eexists.
    apply IdTokenChangeCounter_notified. exact H.
  - intros users test_name Hn.
    destruct (IdTokenChangeCounter_notified_all users
                IdTokenChangeCounter.new) as (t & Hrun & _); [exact Hn|].
    eexists; exists t; eexists. split; [exact Hrun|].
    rewrite IdTokenChangeCounter_CompleteTest_run.
    cbn [IdTokenChangeCounter.num_token_changes_
         IdTokenChangeCounter.new Z.add].
    split; [reflexivity|]. split; [reflexivity|].
    cbn [error_report]. rewrite Z.leb_refl. reflexivity.
  - intros test_name lo hi c. do 2 eexists.
    rewrite IdTokenChangeCounter_CompleteTest_run.
    split; [reflexivity|]. split; [reflexivity|].
    eexists. split; reflexivity.
Qed.

(** C8: for both listener classes, the exact-count [CompleteTest] gives the
    same result, report and final state as the range one called with the
    count as both bounds; the report it gives is not error-classified
    exactly when the count equals the expected one. *)
Theorem CompleteTest_exact_as_range (test_name : string) (k : Z) :
  (forall c,
     AuthStateChangeCounter.CompleteTest_exact test_name k c =
     AuthStateChangeCounter.CompleteTest test_name k k c /\
     exists r,
       AuthStateChangeCounter.CompleteTest_exact test_name k c =
       Some (tt, {| AuthStateChangeCounter.num_state_changes_ := 0 |}, [r]) /\
       (error_report r = false <->
        AuthStateChangeCounter.num_state_changes_ c = k)) /\
  (forall c,
     IdTokenChangeCounter.CompleteTest_exact test_name k c =
     IdTokenChangeCounter.CompleteTest test_name k k c /\
     exists r,
       IdTokenChangeCounter.CompleteTest_exact test_name k c =
       Some (tt, {| IdTokenChangeCounter.num_token_changes_ := 0 |}, [r]) /\
       (error_report r = false <->
        IdTokenChangeCounter.num_token_changes_ c = k)).
Proof.
  split; intros [n]; (split; [reflexivity|]).
  - unfold AuthStateChangeCounter.CompleteTest_exact.
    rewrite AuthStateChangeCounter_CompleteTest_run.
    cbn [AuthStateChangeCounter.num_state_changes_].
    eexists. split; [reflexivity|].
    cbn [error_report].
    destruct (Z.leb_spec k n), (Z.leb_spec n k); cbn;
      split; intros; try reflexivity; try lia; discriminate.
  - unfold IdTokenChangeCounter.CompleteTest_exact.
    rewrite IdTokenChangeCounter_CompleteTest_run.
    cbn [IdTokenChangeCounter.num_token_changes_].
    eexists. split; [reflexivity|].
    cbn [error_report].
    destruct (Z.leb_spec k n), (Z.leb_spec n k); cbn;
      split; intros; try reflexivity; try lia; discriminate.
Qed.

(** ** The helpers on the scripted world *)

(** The pump asks to quit in the second round. *)
Lemma WaitForFuture_quit_request_run :
  WaitForFuture Scripted.pump 2 Scripted.future "Auth::SignInAnonymously()"
    kAuthErrorNone true
    (Scripted.start Scripted.pending
       [(false, Scripted.pending); (true, Scripted.signed_in)]) =
  Some (true, Scripted.start Scripted.signed_in [],
        [EvLogMessage "  Calling %s..."
           [ArgStr (Some "Auth::SignInAnonymously()")];
         EvProcessEvents 100; EvProcessEvents 100]).
Proof.
  refine (WaitForFuture_quit_request _ Scripted.pump Scripted.future
            _ _ _ _ 1 2 _ _ _ _).
  - intros i Hi. destruct i as [|i]; [split; reflexivity | lia].
  - reflexivity.
  - reflexivity.
  - lia.
Defined.

(** The pump asks to quit in the first round: one invocation, no report
    after the "Calling" line. *)
Example WaitForFuture_quit_first_round :
  WaitForFuture Scripted.pump 1 Scripted.future "Auth::SignInAnonymously()"
    kAuthErrorNone true
    (Scripted.start Scripted.pending [(true, Scripted.signed_in)]) =
  Some (true, Scripted.start Scripted.signed_in [],
        [EvLogMessage "  Calling %s..."
           [ArgStr (Some "Auth::SignInAnonymously()")];
         EvProcessEvents 100]).
Proof. reflexivity. Qed.

(** The future completes as expected after one quiet round. *)
Lemma WaitForFuture_expected_error_run :
  exists r : Event,
    WaitForFuture Scripted.pump 2 Scripted.future "GetToken()"
      kAuthErrorNone true
      (Scripted.start Scripted.pending [(false, Scripted.signed_in)]) =
    Some (false, Scripted.start Scripted.signed_in [],
          [EvLogMessage "  Calling %s..." [ArgStr (Some "GetToken()")];
           EvProcessEvents 100; r]) /\
    success_report r = true.
Proof.
  destruct (WaitForFuture_expected_error _ Scripted.pump Scripted.future
              "GetToken()" kAuthErrorNone
              (Scripted.start Scripted.pending [(false, Scripted.signed_in)])
              1 2) as (r & Hrun & Hok & _).
  - intros i Hi. destruct i as [|i]; [split; reflexivity | lia].
  - reflexivity.
  - reflexivity.
  - lia.
  - exists r. split; [exact Hrun | exact Hok].
Defined.

(** A failed sign-in where success was expected: the report shows code 1 and
    the message, and nowhere the expected code 0. *)
Lemma WaitForFuture_unexpected_error_run :
  WaitForFuture Scripted.pump 2 Scripted.future
    "Auth::SignInWithEmailAndPassword()" kAuthErrorNone true
    (Scripted.start Scripted.pending [(false, Scripted.failed)]) =
  Some (false, Scripted.start Scripted.failed [],
        [EvLogMessage "  Calling %s..."
           [ArgStr (Some "Auth::SignInWithEmailAndPassword()")];
         EvProcessEvents 100;
         EvLogMessage "ERROR: %s completed with error: %d, `%s`"
           [ArgStr (Some "Auth::SignInWithEmailAndPassword()");
            ArgInt 1; ArgStr (Some "bad password")]]).
Proof.
  refine (proj1 (WaitForFuture_unexpected_error _ Scripted.pump
                   Scripted.future _ _ _ 1 2 _ _ _ _)).
  - intros i Hi. destruct i as [|i]; [split; reflexivity | lia].
  - reflexivity.
  - discriminate.
  - lia.
Defined.

(** C3 as stated fails: on a future that completed with code 1 where code 0
    was expected, no report of the run carries both codes. *)
Lemma mismatch_report_lacks_expected_code :
  ~ (exists w' t r,
       WaitForFuture Scripted.pump 1 Scripted.future
         "Auth::SignInWithEmailAndPassword()" kAuthErrorNone true
         (Scripted.start Scripted.failed []) = Some (false, w', t) /\
       In r t /\
       mismatch_report r = true /\
       mentions_code kAuthErrorNone r = true /\
       mentions_code kAuthErrorFailure r = true).
Proof.
  intros (w' & t & r & Hrun & Hin & _ & Hexp & _).
  vm_compute in Hrun. injection Hrun as _ <-.
  destruct Hin as [<- | [<- | []]]; discriminate Hexp.
Qed.

(** An invalid future: one error report, no poll, whatever the fuel. *)
Lemma WaitForFuture_invalid_run :
  WaitForFuture Scripted.pump 0 Scripted.future "User::Delete()"
    kAuthErrorNone true
    (Scripted.start Scripted.invalid [(true, Scripted.signed_in)]) =
  Some (false, Scripted.start Scripted.invalid [(true, Scripted.signed_in)],
        [EvLogMessage "ERROR: Future for %s is invalid"
           [ArgStr (Some "User::Delete()")]]).
Proof.
  refine (proj1 (WaitForFuture_invalid _ Scripted.pump Scripted.future
                   _ _ _ _ 0 _)).
  reflexivity.
Defined.

(** Two quiet rounds, then success. *)
Lemma WaitForFuture_two_polls_run :
  exists r : Event,
    WaitForFuture Scripted.pump 3 Scripted.future "Auth::SignInAnonymously()"
      kAuthErrorNone true
      (Scripted.start Scripted.pending
         [(false, Scripted.pending); (false, Scripted.signed_in)]) =
    Some (false, Scripted.start Scripted.signed_in [],
          [EvLogMessage "  Calling %s..."
             [ArgStr (Some "Auth::SignInAnonymously()")];
           EvProcessEvents 100; EvProcessEvents 100; r]) /\
    success_report r = true.
Proof.
  destruct (WaitForFuture_two_polls _ Scripted.pump Scripted.future
              "Auth::SignInAnonymously()"
              (Scripted.start Scripted.pending
                 [(false, Scripted.pending); (false, Scripted.signed_in)])
              3) as (r & Hrun & Hok & _);
    [reflexivity | reflexivity | reflexivity | reflexivity
     | reflexivity | reflexivity | lia |].
  exists r. split; [exact Hrun | exact Hok].
Defined.

(** The same failed sign-in with logging off: nothing after "Calling". *)
Lemma WaitForFuture_log_error_off_run :
  WaitForFuture Scripted.pump 2 Scripted.future "User::Delete()"
    kAuthErrorNone false
    (Scripted.start Scripted.pending [(false, Scripted.failed)]) =
  Some (false, Scripted.start Scripted.failed [],
        [EvLogMessage "  Calling %s..." [ArgStr (Some "User::Delete()")];
         EvProcessEvents 100]).
Proof.
  refine (proj1 (WaitForFuture_log_error_off _ Scripted.pump Scripted.future
                   _ _ _ 1 2 _ _ _)).
  - intros i Hi. destruct i as [|i]; [split; reflexivity | lia].
  - reflexivity.
  - lia.
Defined.

(** The future's user differs from [auth]'s: still [false], and one more
    error report. *)
Lemma WaitForSignInFuture_returns_base_run :
  WaitForSignInFuture Scripted.pump 2 Scripted.future
    "Auth::SignInAnonymously()" kAuthErrorNone Scripted.auth
    (Scripted.start Scripted.pending [(false, Scripted.signed_in_other)]) =
  Some (false, Scripted.start Scripted.signed_in_other [],
        [EvLogMessage "  Calling %s..."
           [ArgStr (Some "Auth::SignInAnonymously()")];
         EvProcessEvents 100;
         EvLogMessage "%s completed as expected"
           [ArgStr (Some "Auth::SignInAnonymously()")];
         EvLogMessage
           "ERROR: future's user (%x) and current_user (%x) don't match"
           [ArgInt 4096; ArgInt 8192]]).
Proof.
  refine (proj2 (proj2 (WaitForSignInFuture_returns_base _ Scripted.pump
                          Scripted.future Scripted.auth
                          "Auth::SignInAnonymously()" kAuthErrorNone 2
                          (Scripted.start Scripted.pending
                             [(false, Scripted.signed_in_other)])))
            (Scripted.start Scripted.signed_in_other [])
            [EvLogMessage "  Calling %s..."
               [ArgStr (Some "Auth::SignInAnonymously()")];
             EvProcessEvents 100;
             EvLogMessage "%s completed as expected"
               [ArgStr (Some "Auth::SignInAnonymously()")]]
            _).
  reflexivity.
Defined.

(** Five notifications against the range 1 to 2: an error report, and the
    count is zero afterwards. *)
Lemma CompleteTest_within_range_run :
  exists c t r,
    for_each AuthStateChangeCounter.OnAuthStateChanged [1; 2; 3; 4; 5]
      AuthStateChangeCounter.new = Some (tt, c, t) /\
    AuthStateChangeCounter.CompleteTest "x" 1 2 c =
    Some (tt, AuthStateChangeCounter.new, [r]) /\
    error_report r = true /\
    mentions_code 5 r = true.
Proof.
  assert (Hn : Z.of_nat (List.length [1; 2; 3; 4; 5]) <= INT_MAX)
    by (vm_compute; discriminate).
  destruct (proj1 (CompleteTest_within_range [1; 2; 3; 4; 5] "x" 1 2 Hn)
              AuthStateChangeCounter.new eq_refl)
    as (c & t & r & Hrun & Htest & _ & Hbad & Hcount).
  exists c, t, r. repeat split; try assumption.
  apply Hbad. cbn. lia.
Defined.

(** Three token notifications, then the exact count 3. *)
Lemma CompleteTest_after_notifications_run :
  exists c t r,
    for_each IdTokenChangeCounter.OnIdTokenChanged [1; 2; 3]
      IdTokenChangeCounter.new = Some (tt, c, t) /\
    IdTokenChangeCounter.num_token_changes_ c = 3 /\
    IdTokenChangeCounter.CompleteTest "x" 3 3 c =
    Some (tt, IdTokenChangeCounter.new, [r]) /\
    error_report r = false.
Proof.
  assert (Hn : Z.of_nat (List.length [1; 2; 3]) <= INT_MAX)
    by (vm_compute; discriminate).
  exact (proj1 (proj2 (proj2 CompleteTest_after_notifications))
           [1; 2; 3] "x" Hn).
Defined.

(** Three notifications against the range 2 to 4, then the range 0 to 0: two
    reports, neither error-classified. *)
Example three_notifications_then_two_tests :
  option_map (fun r => (snd (fst r), map error_report (reports (snd r))))
    ((for_each AuthStateChangeCounter.OnAuthStateChanged [1; 2; 3] ;;;
      AuthStateChangeCounter.CompleteTest "x" 2 4 ;;;
      AuthStateChangeCounter.CompleteTest "x" 0 0)%harness
       AuthStateChangeCounter.new) =
  Some (AuthStateChangeCounter.new, [false; false; false; false; false]).
Proof. reflexivity. Qed.

(** At [INT_MAX] a further notification has no defined result. *)
Example notification_at_INT_MAX :
  AuthStateChangeCounter.OnAuthStateChanged nullptr
    {| AuthStateChangeCounter.num_state_changes_ := INT_MAX |} = None.
Proof. reflexivity. Qed.

(** * Further properties *)

(** ** What a finished [WaitForFuture] tells *)

Section WaitInversion.

Variable World : Type.
Variable pump : Z -> World -> bool * World.
Variable future : FutureBase World.

Lemma still_waiting_cons (w : World) (n : nat) :
  status future w = kFutureStatusPending ->
  fst (pump 100 w) = false ->
  still_waiting pump future (snd (pump 100 w)) n ->
  still_waiting pump future w (S n).
Proof.
  intros Hst Hq H i Hi. destruct i as [|i].
  - split; assumption.
  - cbn [pump_n]. apply H. lia.
Qed.

(** Every way the loop can end. *)
Lemma wait_while_pending_inv (fuel : nat) (w w' : World) (b : bool)
    (t : list Event) :
  wait_while_pending pump fuel future w = Some (b, w', t) ->
  exists n,
    still_waiting pump future w n /\
    if b then
      status future (pump_n pump n w) = kFutureStatusPending /\
      fst (pump 100 (pump_n pump n w)) = true /\
      w' = pump_n pump (S n) w /\
      t = repeat (EvProcessEvents 100) (S n)
    else
      status future (pump_n pump n w) <> kFutureStatusPending /\
      w' = pump_n pump n w /\
      t = repeat (EvProcessEvents 100) n.
Proof.
  revert w t. induction fuel as [|fuel IH]; intros w t H.
  - discriminate H.
  - rewrite wait_while_pending_step in H.
    destruct (status future w) eqn:Hst.
    + injection H as <- <- <-. exists O. split; [intros i Hi; lia|].
      cbn [pump_n repeat]. rewrite Hst. repeat split. discriminate.
    + destruct (fst (pump 100 w)) eqn:Hq.
      * injection H as <- <- <-. exists O. split; [intros i Hi; lia|].
        cbn [pump_n repeat]. repeat split; assumption.
      * destruct (wait_while_pending pump fuel future (snd (pump 100 w)))
          as [[[b1 w1] t1]|] eqn:Hrec; [|discriminate H].
        injection H as <- <- <-.
        destruct (IH _ _ Hrec) as (n & Hwait & Hend).
        exists (S n). split; [apply still_waiting_cons; assumption|].
        destruct b1.
        -- destruct Hend as (H1 & H2 & H3 & H4).
           cbn [pump_n] in *. rewrite H4.
           repeat split; try assumption; reflexivity.
        -- destruct Hend as (H1 & H2 & H3).
           cbn [pump_n] in *. rewrite H3.
           repeat split; try assumption; reflexivity.
    + injection H as <- <- <-. exists O. split; [intros i Hi; lia|].
      cbn [pump_n repeat]. rewrite Hst. repeat split. discriminate.
Qed.

(** A finished [WaitForFuture] has done one of three things: found the
    future invalid and logged that, without a poll; returned [true] right
    after a poll that asked to quit; or returned [false] on finding the
    future no longer pending.  In each case the world it leaves is the one
    the polls produced, and every earlier poll found the future pending. *)
Theorem WaitForFuture_inversion (fuel : nat) (fn : string)
    (expected_error : AuthError) (log_error : bool) (w w' : World)
    (b : bool) (t : list Event) :
  WaitForFuture pump fuel future fn expected_error log_error w =
  Some (b, w', t) ->
  (status future w = kFutureStatusInvalid /\ b = false /\ w' = w /\
   t = [EvLogMessage "ERROR: Future for %s is invalid" [ArgStr (Some fn)]]) \/
  (exists n,
     still_waiting pump future w n /\
     status future (pump_n pump n w) = kFutureStatusPending /\
     fst (pump 100 (pump_n pump n w)) = true /\
     b = true /\ w' = pump_n pump (S n) w /\
     t = EvLogMessage "  Calling %s..." [ArgStr (Some fn)]
         :: repeat (EvProcessEvents 100) (S n)) \/
  (exists n,
     still_waiting pump future w n /\
     status future (pump_n pump n w) <> kFutureStatusPending /\
     b = false /\ w' = pump_n pump n w /\
     t = EvLogMessage "  Calling %s..." [ArgStr (Some fn)]
         :: repeat (EvProcessEvents 100) n
         ++ completion_report future fn expected_error log_error w').
Proof.
  intro H.
  destruct (status future w) eqn:Hst.
  1, 2: right;
    rewrite WaitForFuture_started in H by (rewrite Hst; discriminate);
    destruct (wait_while_pending pump fuel future w)
      as [[[b1 w1] t1]|] eqn:Hloop; [|discriminate H];
    destruct (wait_while_pending_inv _ _ _ _ _ Hloop) as (n & Hwait & Hend);
    destruct b1;
    [ left; destruct Hend as (H1 & H2 & H3 & H4);
      injection H as <- <- <-; exists n; subst;
      split; [exact Hwait|]; repeat split; try assumption; reflexivity
    | right; destruct Hend as (H1 & H2 & H3);
      injection H as <- <- <-; exists n; subst;
      split; [exact Hwait|]; repeat split; try assumption; reflexivity ].
  left. unfold WaitForFuture, bind, read in H. rewrite Hst in H.
  cbn in H. injection H as <- <- <-. repeat split.
Qed.

(** [WaitForFuture] left by a quit request in round [n + 1]. *)
Lemma WaitForFuture_quits (fn : string) (expected_error : AuthError)
    (log_error : bool) (w : World) (n fuel : nat) :
  still_waiting pump future w n ->
  status future (pump_n pump n w) = kFutureStatusPending ->
  fst (pump 100 (pump_n pump n w)) = true ->
  (n < fuel)%nat ->
  WaitForFuture pump fuel future fn expected_error log_error w =
  Some (true, snd (pump 100 (pump_n pump n w)),
        EvLogMessage "  Calling %s..." [ArgStr (Some fn)]
        :: repeat (EvProcessEvents 100) (S n)).
Proof.
  intros H Hst Hq Hfuel.
  rewrite WaitForFuture_started
    by (apply (still_waiting_started _ pump future n);
        [exact H | rewrite Hst; discriminate]).
  rewrite (wait_while_pending_quit _ pump future n) by assumption.
  rewrite pump_n_succ. reflexivity.
Qed.

End WaitInversion.

(** ** [WaitForSignOut] *)

Section SignOutFacts.

Variable World : Type.
Variable pump : Z -> World -> bool * World.
Variable auth : Auth World.

Lemma rounds_succ (msec : Z) (n : nat) (w : World) :
  rounds pump msec (S n) w = snd (pump msec (rounds pump msec n w)).
Proof.
  revert w. induction n as [|n IH]; intro w.
  - reflexivity.
  - change (rounds pump msec (S (S n)) w)
      with (rounds pump msec (S n) (snd (pump msec w))).
    rewrite IH. reflexivity.
Qed.

Lemma wait_while_signed_in_step (fuel : nat) (w : World) :
  wait_while_signed_in pump (S fuel) auth w =
  if current_user auth w =? nullptr then Some (false, w, [])
  else if fst (pump 100 w)
       then Some (true, snd (pump 100 w), [EvProcessEvents 100])
       else match wait_while_signed_in pump fuel auth (snd (pump 100 w)) with
            | None => None
            | Some (b, w', t) => Some (b, w', EvProcessEvents 100 :: t)
            end.
Proof.
  cbn [wait_while_signed_in]. unfold bind, read, ProcessEvents, ret.
  destruct (current_user auth w =? nullptr); [reflexivity|].
  destruct (pump 100 w) as [quit w1]. cbn [fst snd].
  destruct quit; [reflexivity|].
  destruct (wait_while_signed_in pump fuel auth w1) as [[[b w2] t]|];
    reflexivity.
Qed.

Lemma wait_while_signed_in_skip (n fuel : nat) (w : World) :
  still_signed_in pump auth w n ->
  wait_while_signed_in pump (n + fuel) auth w =
  match wait_while_signed_in pump fuel auth (rounds pump 100 n w) with
  | None => None
  | Some (b, w', t) => Some (b, w', repeat (EvProcessEvents 100) n ++ t)
  end.
Proof.
  revert w. induction n as [|n IH]; intros w H.
  - cbn [Nat.add rounds repeat app].
    destruct (wait_while_signed_in pump fuel auth w) as [[[b w'] t]|];
      reflexivity.
  - destruct (H O ltac:(lia)) as [Hu Hq]. cbn [rounds] in Hu, Hq.
    apply Z.eqb_neq in Hu.
    cbn [Nat.add]. rewrite wait_while_signed_in_step, Hu, Hq.
    rewrite IH by (intros i Hi; apply (H (S i)); lia).
    cbn [rounds].
    destruct (wait_while_signed_in pump fuel auth
                (rounds pump 100 n (snd (pump 100 w)))) as [[[b w'] t]|];
      reflexivity.
Qed.

(** Once no user is signed in, after [n] quiet rounds, [WaitForSignOut]
    processes events for one more second and returns [false]; what that last
    [ProcessEvents(1000)] returns plays no part, so a quit request made
    during it goes unnoticed. *)
Theorem WaitForSignOut_signed_out (w : World) (n fuel : nat) :
  still_signed_in pump auth w n ->
  current_user auth (rounds pump 100 n w) = nullptr ->
  (n < fuel)%nat ->
  WaitForSignOut pump fuel auth w =
  Some (false, snd (pump 1000 (rounds pump 100 n w)),
        repeat (EvProcessEvents 100) n ++ [EvProcessEvents 1000]).
Proof.
  intros H Hu Hfuel. unfold WaitForSignOut. unfold bind at 1.
  replace fuel with (n + S (fuel - S n))%nat by lia.
  rewrite (wait_while_signed_in_skip _ _ _ H), wait_while_signed_in_step.
  rewrite Hu. cbn [Z.eqb nullptr].
  unfold bind, ProcessEvents, ret.
  destruct (pump 1000 (rounds pump 100 n w)) as [q w1]. cbn [snd].
  rewrite !app_nil_r. reflexivity.
Qed.

(** A quit request while a user is still signed in ends [WaitForSignOut]
    at once with [true]: the one-second wait is skipped. *)
Theorem WaitForSignOut_quit_request (w : World) (n fuel : nat) :
  still_signed_in pump auth w n ->
  current_user auth (rounds pump 100 n w) <> nullptr ->
  fst (pump 100 (rounds pump 100 n w)) = true ->
  (n < fuel)%nat ->
  WaitForSignOut pump fuel auth w =
  Some (true, snd (pump 100 (rounds pump 100 n w)),
        repeat (EvProcessEvents 100) (S n)).
Proof.
  intros H Hu Hq Hfuel. unfold WaitForSignOut. unfold bind at 1.
  replace fuel with (n + S (fuel - S n))%nat by lia.
  rewrite (wait_while_signed_in_skip _ _ _ H), wait_while_signed_in_step.
  apply Z.eqb_neq in Hu. rewrite Hu, Hq. unfold ret.
  rewrite app_nil_r.
  replace (S n) with (n + 1)%nat by lia. rewrite repeat_app. reflexivity.
Qed.

Lemma wait_while_signed_in_inv (fuel : nat) (w w' : World) (b : bool)
    (t : list Event) :
  wait_while_signed_in pump fuel auth w = Some (b, w', t) ->
  exists n,
    still_signed_in pump auth w n /\
    if b then
      current_user auth (rounds pump 100 n w) <> nullptr /\
      fst (pump 100 (rounds pump 100 n w)) = true /\
      w' = rounds pump 100 (S n) w /\
      t = repeat (EvProcessEvents 100) (S n)
    else
      current_user auth (rounds pump 100 n w) = nullptr /\
      w' = rounds pump 100 n w /\
      t = repeat (EvProcessEvents 100) n.
Proof.
  revert w t. induction fuel as [|fuel IH]; intros w t H.
  - discriminate H.
  - rewrite wait_while_signed_in_step in H.
    destruct (Z.eqb_spec (current_user auth w) nullptr) as [Hu|Hu].
    + injection H as <- <- <-. exists O. split; [intros i Hi; lia|].
      cbn [rounds repeat]. repeat split. exact Hu.
    + destruct (fst (pump 100 w)) eqn:Hq.
      * injection H as <- <- <-. exists O. split; [intros i Hi; lia|].
        cbn [rounds repeat]. repeat split; assumption.
      * destruct (wait_while_signed_in pump fuel auth (snd (pump 100 w)))
          as [[[b1 w1] t1]|] eqn:Hrec; [|discriminate H].
        injection H as <- <- <-.
        destruct (IH _ _ Hrec) as (n & Hwait & Hend).
        exists (S n). split.
        { intros i Hi. destruct i as [|i]; [split; assumption|].
          cbn [rounds]. apply Hwait. lia. }
        destruct b1.
        -- destruct Hend as (H1 & H2 & H3 & H4).
           cbn [rounds] in *. rewrite H4.
           repeat split; try assumption; reflexivity.
        -- destruct Hend as (H1 & H2 & H3).
           cbn [rounds] in *. rewrite H3.
           repeat split; try assumption; reflexivity.
Qed.

(** [WaitForSignOut] logs nothing, and it returns [false] only after a poll
    of the loop condition found no signed-in user; [true] only after a round
    in which the pump asked to quit while a user was signed in. *)
Theorem WaitForSignOut_inversion (fuel : nat) (w w' : World) (b : bool)
    (t : list Event) :
  WaitForSignOut pump fuel auth w = Some (b, w', t) ->
  reports t = [] /\
  exists n,
    still_signed_in pump auth w n /\
    if b then
      current_user auth (rounds pump 100 n w) <> nullptr /\
      fst (pump 100 (rounds pump 100 n w)) = true /\
      w' = rounds pump 100 (S n) w /\
      t = repeat (EvProcessEvents 100) (S n)
    else
      current_user auth (rounds pump 100 n w) = nullptr /\
      w' = snd (pump 1000 (rounds pump 100 n w)) /\
      t = repeat (EvProcessEvents 100) n ++ [EvProcessEvents 1000].
Proof.
  intro H. unfold WaitForSignOut in H. unfold bind at 1 in H.
  destruct (wait_while_signed_in pump fuel auth w)
    as [[[b1 w1] t1]|] eqn:Hloop; [|discriminate H].
  destruct (wait_while_signed_in_inv _ _ _ _ _ Hloop) as (n & Hwait & Hend).
  assert (Hrep : forall k tl,
             reports (repeat (EvProcessEvents 100) k ++ tl) = reports tl).
  { induction k as [|k IHk]; intro tl; [reflexivity | exact (IHk tl)]. }
  destruct b1.
  - destruct Hend as (H1 & H2 & H3 & H4).
    unfold ret in H. injection H as <- <- <-. rewrite app_nil_r. subst t1.
    split.
    + rewrite <- (app_nil_r (repeat _ (S n))). apply Hrep.
    + exists n. split; [exact Hwait|]. repeat split; assumption.
  - destruct Hend as (H1 & H2 & H3).
    unfold bind, ProcessEvents, ret in H.
    destruct (pump 1000 w1) as [q w2] eqn:Hp.
    injection H as <- <- <-. subst t1 w1.
    split.
    + rewrite Hrep. reflexivity.
    + exists n. split; [exact Hwait|].
      rewrite Hp. repeat split; assumption.
Qed.

End SignOutFacts.

(** ** The [Expect] helpers *)

(** When a label followed by a blank opens with [ERROR: ], the label itself
    opens with [ERROR:]. *)
Lemma label_opens_with_ERROR (test rest : string) :
  prefix "ERROR: " (test ++ String " " rest)%string = true ->
  prefix "ERROR:" test = true.
Proof.
  do 6 (destruct test as [|? test];
        [ intro H; cbn in H; discriminate H
        | cbn [append prefix];
          destruct (ascii_dec _ _); [|intro H; discriminate H] ]).
  intros _. destruct test; reflexivity.
Qed.

(** For a label that does not open with [ERROR:], [ExpectTrue] logs one
    report, error-classified exactly when the value is [false], and
    [ExpectFalse] one that is error-classified exactly when the value is
    [true]; neither touches the state. *)
Theorem Expect_bool_reports (St : Type) (test : string) (value : bool)
    (s : St) :
  prefix "ERROR:" test = false ->
  exists r_true r_false,
    ExpectTrue test value s = Some (tt, s, [r_true]) /\
    error_report r_true = negb value /\
    ExpectFalse test value s = Some (tt, s, [r_false]) /\
    error_report r_false = value.
Proof.
  intro Hlabel. unfold ExpectTrue, ExpectFalse, LogMessage.
  destruct value; do 2 eexists; repeat split; cbn [error_report negb];
    try reflexivity.
  - destruct (prefix "ERROR: " _) eqn:E; [|reflexivity].
    apply label_opens_with_ERROR in E. congruence.
  - destruct (prefix "ERROR: " _) eqn:E; [|reflexivity].
    apply label_opens_with_ERROR in E. congruence.
Qed.

Lemma string_compare_refl (a : string) : String.compare a a = Eq.
Proof.
  induction a as [|c a IH]; cbn; [reflexivity|].
  unfold Ascii.compare. rewrite N.compare_refl. exact IH.
Qed.

Lemma strcmp_zero (a b : string) : (strcmp a b =? 0) = true <-> a = b.
Proof.
  unfold strcmp. split.
  - destruct (String.compare a b) eqn:E; cbn; try discriminate.
    intros _. apply String.compare_eq_iff. exact E.
  - intros ->. rewrite string_compare_refl. reflexivity.
Qed.

(** For a label that does not open with [ERROR:], [ExpectStringsEqual] logs
    one report that carries the actual string, is error-classified exactly
    when the strings differ, and then carries the expected string as
    well. *)
Theorem ExpectStringsEqual_report (St : Type) (test expected actual : string)
    (s : St) :
  prefix "ERROR:" test = false ->
  exists r,
    ExpectStringsEqual test expected actual s = Some (tt, s, [r]) /\
    (error_report r = false <-> expected = actual) /\
    mentions_string (Some actual) r = true /\
    (expected <> actual -> mentions_string (Some expected) r = true).
Proof.
  intro Hlabel. unfold ExpectStringsEqual, LogMessage.
  destruct (strcmp expected actual =? 0) eqn:Hcmp.
  - apply strcmp_zero in Hcmp. subst actual.
    eexists. split; [reflexivity|]. repeat split.
    + cbn [error_report].
      destruct (prefix "ERROR: " _) eqn:E; [|reflexivity].
      apply label_opens_with_ERROR in E. congruence.
    + cbn. rewrite String.eqb_refl, !orb_true_r. reflexivity.
    + intro Hne. congruence.
  - assert (Hne : expected <> actual).
    { intro E. apply strcmp_zero in E. congruence. }
    eexists. split; [reflexivity|]. repeat split.
    + cbn. discriminate.
    + intro E. contradiction.
    + cbn. rewrite String.eqb_refl, !orb_true_r. reflexivity.
    + intros _. cbn. rewrite (String.eqb_refl expected), !orb_true_r.
      reflexivity.
Qed.

(** ** [CreateNewEmail] *)

Lemma length_append (a s : string) :
  String.length (a ++ s) = (String.length a + String.length s)%nat.
Proof.
  induction a as [|c a IH]; cbn; [reflexivity | rewrite IH; reflexivity].
Qed.

Lemma append_cancel_r (a b s : string) :
  (a ++ s)%string = (b ++ s)%string -> a = b.
Proof.
  revert b. induction a as [|c a IH]; intros [|d b] H; cbn in H.
  - reflexivity.
  - apply (f_equal String.length) in H. cbn in H.
    rewrite length_append in H. lia.
  - apply (f_equal String.length) in H. cbn in H.
    rewrite length_append in H. lia.
  - injection H as -> H. f_equal. apply IH. exact H.
Qed.

Lemma decimal_inj (a b : Z) : decimal a = decimal b -> a = b.
Proof.
  assert (Hparse : forall z,
             NilZero.int_of_string (decimal z) = Some (Z.to_int z)).
  { intro z. unfold decimal. apply NilZero.isi.
    - destruct z as [|p|p]; cbn; try discriminate.
      intros [= E]. exact (DecimalPos.Unsigned.to_uint_nonnil p E).
    - destruct z as [|p|p]; cbn; try discriminate.
      intros [= E]. exact (DecimalPos.Unsigned.to_uint_nonnil p E). }
  intro H. apply (f_equal NilZero.int_of_string) in H.
  rewrite !Hparse in H. injection H as H.
  rewrite <- (DecimalZ.of_to a), <- (DecimalZ.of_to b), H. reflexivity.
Qed.

(** Two calls of [CreateNewEmail] give the same address exactly when the
    clock read the same second in both: a later second always gives a new
    address, and a second call within the same second repeats the
    address. *)
Theorem CreateNewEmail_same_iff (now1 now2 : Z) :
  CreateNewEmail now1 = CreateNewEmail now2 <-> now1 = now2.
Proof.
  split; [|intros ->; reflexivity].
  unfold CreateNewEmail. intro H.
  apply decimal_inj.
  apply (append_cancel_r _ _ "@gmail.com").
  cbn [append] in H. repeat (injection H as H). exact H.
Qed.

(** The address made at second 1478044800. *)
Example CreateNewEmail_sample :
  CreateNewEmail 1478044800 = "random_1478044800@gmail.com".
Proof. reflexivity. Qed.

(** ** [PhoneListener] *)

Section PhoneListenerFacts.

Variable Credential : Type.
Variable ForceResendingToken : Type.

Lemma calls_cons (p : PhoneCallback Credential ForceResendingToken -> bool)
    (cb : PhoneCallback Credential ForceResendingToken)
    (cbs : list (PhoneCallback Credential ForceResendingToken)) :
  calls p (cb :: cbs) = (if p cb then 1 else 0) + calls p cbs.
Proof.
  unfold calls. cbn [filter]. destruct (p cb); cbn [List.length]; lia.
Qed.

Lemma calls_bounds (p : PhoneCallback Credential ForceResendingToken -> bool)
    (cbs : list (PhoneCallback Credential ForceResendingToken)) :
  0 <= calls p cbs <= Z.of_nat (List.length cbs).
Proof.
  unfold calls. pose proof (filter_length_le p cbs). lia.
Qed.

(** Delivering a list of calls to a listener whose counters have room. *)
Lemma deliver_all
    (cbs : list (PhoneCallback Credential ForceResendingToken))
    (l : PhoneListener ForceResendingToken) :
  num_calls_on_verification_complete_ l + calls is_completed cbs
    <= INT_MAX ->
  num_calls_on_verification_failed_ l + calls is_failed cbs <= INT_MAX ->
  num_calls_on_code_sent_ l + calls is_code_sent cbs <= INT_MAX ->
  num_calls_on_code_auto_retrieval_time_out_ l + calls is_time_out cbs
    <= INT_MAX ->
  exists t,
    for_each deliver cbs l =
    Some (tt,
          {| verification_id_ := latest_id (verification_id_ l) cbs;
             force_resending_token_ :=
               latest_token (force_resending_token_ l) cbs;
             num_calls_on_verification_complete_ :=
               num_calls_on_verification_complete_ l
               + calls is_completed cbs;
             num_calls_on_verification_failed_ :=
               num_calls_on_verification_failed_ l + calls is_failed cbs;
             num_calls_on_code_sent_ :=
               num_calls_on_code_sent_ l + calls is_code_sent cbs;
             num_calls_on_code_auto_retrieval_time_out_ :=
               num_calls_on_code_auto_retrieval_time_out_ l
               + calls is_time_out cbs |}, t) /\
    List.length t = List.length cbs /\
    Z.of_nat (List.length (filter error_report t)) = calls is_failed cbs.
Proof.
  revert l. induction cbs as [|cb cbs IH]; intros l H1 H2 H3 H4.
  - exists []. destruct l. cbn. rewrite !Z.add_0_r. repeat split.
  - rewrite calls_cons in H1, H2, H3, H4.
    pose proof (calls_bounds is_completed cbs).
    pose proof (calls_bounds is_failed cbs).
    pose proof (calls_bounds is_code_sent cbs).
    pose proof (calls_bounds is_time_out cbs).
    cbn [for_each]. unfold bind at 1.
    destruct cb as [c|e|id token|id];
      cbn [deliver is_completed is_failed is_code_sent is_time_out] in *;
      [ unfold OnVerificationCompleted | unfold OnVerificationFailed
      | unfold OnCodeSent | unfold OnCodeAutoRetrievalTimeOut ];
      unfold bind, LogMessage, read, put;
      match goal with
      | |- context [?n =? INT_MAX] =>
          destruct (Z.eqb_spec n INT_MAX); [lia|]
      end;
      match goal with
      | |- context [for_each deliver cbs ?l1] =>
          destruct (IH l1) as (t & -> & Hlen & Herr);
          cbn [num_calls_on_verification_complete_
               num_calls_on_verification_failed_
               num_calls_on_code_sent_
               num_calls_on_code_auto_retrieval_time_out_
               verification_id_ force_resending_token_]; try lia
      end;
      (eexists; (split; [|split]);
       [ rewrite !calls_cons;
         cbn [is_completed is_failed is_code_sent is_time_out
              latest_id latest_token];
         rewrite ?Z.add_0_l, ?Z.add_assoc; reflexivity
       | cbn [app List.length]; rewrite Hlen; reflexivity
       | rewrite calls_cons; cbn [is_failed app filter];
         simpl (error_report (EvLogMessage _ _));
         cbn [List.length]; lia ]).
Qed.

(** A fresh [PhoneListener] that has received a list of calls (no more than
    [INT_MAX] of them) holds, in each counter, the number of calls of that
    kind; its verification id is that of the latest [OnCodeSent] or
    [OnCodeAutoRetrievalTimeOut], and its token that of the latest
    [OnCodeSent].  Each call logged one line, and the error-classified lines
    are as many as the failed verifications. *)
Theorem PhoneListener_counts (default_token : ForceResendingToken)
    (cbs : list (PhoneCallback Credential ForceResendingToken)) :
  Z.of_nat (List.length cbs) <= INT_MAX ->
  exists l t,
    for_each deliver cbs (PhoneListener_new default_token) =
    Some (tt, l, t) /\
    num_calls_on_verification_complete_ l = calls is_completed cbs /\
    num_calls_on_verification_failed_ l = calls is_failed cbs /\
    num_calls_on_code_sent_ l = calls is_code_sent cbs /\
    num_calls_on_code_auto_retrieval_time_out_ l = calls is_time_out cbs /\
    verification_id_ l = latest_id "" cbs /\
    force_resending_token_ l = latest_token default_token cbs /\
    List.length t = List.length cbs /\
    Z.of_nat (List.length (filter error_report t)) = calls is_failed cbs.
Proof.
  intro Hn.
  pose proof (calls_bounds is_completed cbs).
  pose proof (calls_bounds is_failed cbs).
  pose proof (calls_bounds is_code_sent cbs).
  pose proof (calls_bounds is_time_out cbs).
  destruct (deliver_all cbs (PhoneListener_new default_token))
    as (t & Hrun & Hlen & Herr);
    cbn [PhoneListener_new num_calls_on_verification_complete_
         num_calls_on_verification_failed_ num_calls_on_code_sent_
         num_calls_on_code_auto_retrieval_time_out_]; try lia.
  eexists. exists t. split; [exact Hrun|].
  cbn [PhoneListener_new num_calls_on_verification_complete_
       num_calls_on_verification_failed_ num_calls_on_code_sent_
       num_calls_on_code_auto_retrieval_time_out_
       verification_id_ force_resending_token_].
  repeat split; try assumption; reflexivity.
Qed.

End PhoneListenerFacts.

(** ** The phone-verification waits *)

Section PhoneWaitFacts.

Variable World : Type.
Variable pump : Z -> World -> bool * World.
Variable ForceResendingToken : Type.
Variable listener : World -> PhoneListener ForceResendingToken.

Lemma wait_with_budget_step (fuel : nat)
    (waiting : PhoneListener ForceResendingToken -> bool)
    (budget wait_ms : Z) (w : World) :
  wait_with_budget pump listener (S fuel) waiting budget wait_ms w =
  if waiting (listener w) then
    if wait_ms >? budget then Some (wait_ms, w, [])
    else
      match wait_with_budget pump listener fuel waiting budget
              (wait_ms + kWaitIntervalMs) (snd (pump kWaitIntervalMs w)) with
      | None => None
      | Some (r, w', t) =>
          Some (r, w',
                EvProcessEvents kWaitIntervalMs :: EvLogMessage "." [] :: t)
      end
  else Some (wait_ms, w, []).
Proof.
  cbn [wait_with_budget]. unfold bind, read, ProcessEvents, LogMessage, ret.
  destruct (waiting (listener w)); [|reflexivity].
  destruct (wait_ms >? budget); [reflexivity|].
  destruct (pump kWaitIntervalMs w) as [q w1]. cbn [snd].
  destruct (wait_with_budget pump listener fuel waiting budget
              (wait_ms + kWaitIntervalMs) w1) as [[[r w2] t]|];
    reflexivity.
Qed.

Lemma rounds_left_step (budget wait_ms : Z) :
  wait_ms <= budget ->
  (S (rounds_left budget (wait_ms + kWaitIntervalMs))
   <= rounds_left budget wait_ms)%nat.
Proof.
  intro H. unfold rounds_left, kWaitIntervalMs.
  destruct (Z.gtb_spec wait_ms budget); [lia|].
  destruct (Z.gtb_spec (wait_ms + 300) budget).
  - assert (0 <= (budget - wait_ms) / 300)
      by (apply Z.div_pos; lia).
    lia.
  - replace (budget - wait_ms) with ((budget - (wait_ms + 300)) + 1 * 300)
      by lia.
    rewrite Z.div_add by lia.
    assert (0 <= (budget - (wait_ms + 300)) / 300)
      by (apply Z.div_pos; lia).
    lia.
Qed.

(** A budgeted wait with enough fuel ends, whatever the pump returns. *)
Lemma wait_with_budget_bounded (fuel : nat)
    (waiting : PhoneListener ForceResendingToken -> bool)
    (budget wait_ms : Z) (w : World) :
  (rounds_left budget wait_ms < fuel)%nat ->
  exists r w' t,
    wait_with_budget pump listener fuel waiting budget wait_ms w =
    Some (r, w', t) /\
    (polls t <= rounds_left budget wait_ms)%nat /\
    r = wait_ms + kWaitIntervalMs * Z.of_nat (polls t) /\
    w' = rounds pump kWaitIntervalMs (polls t) w /\
    (waiting (listener w') = false \/ budget < r) /\
    List.length t = (2 * polls t)%nat.
Proof.
  revert wait_ms w. induction fuel as [|fuel IH]; intros wait_ms w Hfuel.
  - lia.
  - rewrite wait_with_budget_step.
    destruct (waiting (listener w)) eqn:Hw.
    + destruct (Z.gtb_spec wait_ms budget) as [Hover|Hin].
      * exists wait_ms, w, []. cbn [polls rounds List.length].
        repeat split; lia.
      * pose proof (rounds_left_step budget wait_ms Hin) as Hstep.
        destruct (IH (wait_ms + kWaitIntervalMs)
                    (snd (pump kWaitIntervalMs w)))
          as (r & w' & t & -> & Hp & Hr & Hw' & Hend & Hlen); [lia|].
        do 3 eexists. split; [reflexivity|].
        cbn [polls rounds List.length].
        repeat split; try lia; try assumption.
    + exists wait_ms, w, []. cbn [polls rounds List.length].
      repeat split; try lia. left. exact Hw.
Qed.

(** The events of [n] rounds of a budgeted wait. *)
Lemma wait_with_budget_arrives (n fuel : nat)
    (waiting : PhoneListener ForceResendingToken -> bool)
    (budget wait_ms : Z) (w : World) :
  (forall i, (i < n)%nat ->
     waiting (listener (rounds pump kWaitIntervalMs i w)) = true /\
     wait_ms + kWaitIntervalMs * Z.of_nat i <= budget) ->
  waiting (listener (rounds pump kWaitIntervalMs n w)) = false ->
  (n < fuel)%nat ->
  exists t,
    wait_with_budget pump listener fuel waiting budget wait_ms w =
    Some (wait_ms + kWaitIntervalMs * Z.of_nat n,
          rounds pump kWaitIntervalMs n w, t) /\
    polls t = n /\ List.length t = (2 * n)%nat.
Proof.
  revert fuel wait_ms w. induction n as [|n IH]; intros fuel wait_ms w H Hn Hf.
  - destruct fuel as [|fuel]; [lia|].
    rewrite wait_with_budget_step. cbn [rounds] in Hn. rewrite Hn.
    exists []. rewrite Z.mul_0_r, Z.add_0_r. repeat split.
  - destruct fuel as [|fuel]; [lia|].
    rewrite wait_with_budget_step.
    destruct (H O ltac:(lia)) as [Hw Hb]. cbn [rounds] in Hw.
    rewrite Hw. destruct (Z.gtb_spec wait_ms budget); [lia|].
    destruct (IH fuel (wait_ms + kWaitIntervalMs)
                (snd (pump kWaitIntervalMs w))) as (t & -> & Hp & Hlen).
    + intros i Hi. destruct (H (S i) ltac:(lia)) as [Hwi Hbi].
      split; [exact Hwi|]. unfold kWaitIntervalMs in *. lia.
    + exact Hn.
    + lia.
    + eexists. split; [|split].
      * cbn [rounds]. do 3 f_equal. unfold kWaitIntervalMs. lia.
      * cbn [polls]. rewrite Hp. reflexivity.
      * cbn [List.length]. lia.
Qed.


(** When no callback arrives during the first 2001 rounds, the wait for
    [OnCodeSent()] makes exactly 2001 rounds and leaves [wait_ms] at 600300,
    past [kPhoneAuthCodeSendWaitMs]. *)
Theorem wait_for_code_sent_times_out (fuel : nat) (w : World) :
  (forall i, (i <= 2001)%nat ->
     let l := listener (rounds pump 300 i w) in
     num_calls_on_verification_complete_ l = 0 /\
     num_calls_on_verification_failed_ l = 0 /\
     num_calls_on_code_sent_ l = 0) ->
  (2001 < fuel)%nat ->
  exists t,
    wait_for_code_sent pump listener fuel 0 w =
    Some (600300, rounds pump 300 2001 w, t) /\
    polls t = 2001%nat /\
    kPhoneAuthCodeSendWaitMs < 600300.
Proof.
  intros Hidle Hfuel.
  unfold wait_for_code_sent.
  assert (Hr : rounds_left kPhoneAuthCodeSendWaitMs 0 = 2001%nat)
    by reflexivity.
  destruct (wait_with_budget_bounded fuel
              (fun l => (num_calls_on_verification_complete_ l =? 0)
                        && (num_calls_on_verification_failed_ l =? 0)
                        && (num_calls_on_code_sent_ l =? 0))
              kPhoneAuthCodeSendWaitMs 0 w)
    as (r & w' & t & Hrun & Hp & Hms & Hw' & Hend & Hlen);
    [rewrite Hr; exact Hfuel|].
  rewrite Hr in Hp.
  assert (Hn : polls t = 2001%nat).
  { destruct Hend as [Harrived | Hover].
    - destruct (Hidle (polls t) Hp) as (H1 & H2 & H3).
      cbv zeta in H1, H2, H3. fold kWaitIntervalMs in Hw'.
      rewrite Hw' in Harrived.
      unfold kWaitIntervalMs in Harrived.
      rewrite H1, H2, H3 in Harrived. discriminate Harrived.
    - unfold kPhoneAuthCodeSendWaitMs, kWaitIntervalMs in *. lia. }
  exists t. rewrite Hrun, Hw', Hms, Hn. repeat split.
Qed.

(** When the first callback arrives during round [n] of the wait for
    [OnCodeSent()], with [n] at most 2001, the wait makes exactly [n] rounds
    and leaves [wait_ms] at [300 * n]. *)
Theorem wait_for_code_sent_arrives (n fuel : nat) (w : World) :
  (n <= 2001)%nat ->
  (forall i, (i < n)%nat ->
     let l := listener (rounds pump 300 i w) in
     num_calls_on_verification_complete_ l = 0 /\
     num_calls_on_verification_failed_ l = 0 /\
     num_calls_on_code_sent_ l = 0) ->
  (let l := listener (rounds pump 300 n w) in
   num_calls_on_verification_complete_ l <> 0 \/
   num_calls_on_verification_failed_ l <> 0 \/
   num_calls_on_code_sent_ l <> 0) ->
  (n < fuel)%nat ->
  exists t,
    wait_for_code_sent pump listener fuel 0 w =
    Some (300 * Z.of_nat n, rounds pump 300 n w, t) /\
    polls t = n /\
    List.length t = (2 * n)%nat.
Proof.
  intros Hn Hidle Harrived Hfuel. unfold wait_for_code_sent.
  destruct (wait_with_budget_arrives n fuel
              (fun l => (num_calls_on_verification_complete_ l =? 0)
                        && (num_calls_on_verification_failed_ l =? 0)
                        && (num_calls_on_code_sent_ l =? 0))
              kPhoneAuthCodeSendWaitMs 0 w) as (t & Hrun & Hp & Hlen).
  - intros i Hi. destruct (Hidle i Hi) as (H1 & H2 & H3).
    cbv zeta in H1, H2, H3. unfold kWaitIntervalMs.
    rewrite H1, H2, H3.
    split; [reflexivity|]. unfold kPhoneAuthCodeSendWaitMs. lia.
  - cbv zeta in Harrived. unfold kWaitIntervalMs.
    destruct Harrived as [H | [H | H]]; apply Z.eqb_neq in H; rewrite H;
      rewrite ?andb_false_r; reflexivity.
  - exact Hfuel.
  - exists t. split; [exact Hrun|]. split; assumption.
Qed.


End PhoneWaitFacts.

(** ** [UserLogin] *)

Section UserLoginFacts.

Variable World : Type.
Variable pump : Z -> World -> bool * World.
Variable Credential : Type.
Variable GetCredential : string -> string -> Credential.
Variable SignInWithCredential :
  Auth World -> Credential -> World -> Future_User World * World.
Variable User_Delete : Ptr -> World -> FutureBase World * World.

(** Without a user, [Delete()] and the destructor do nothing at all: no call
    into the SDK, no wait, no log line, and the object is unchanged. *)
Theorem UserLogin_Delete_without_user (fuel : nat) (self : UserLogin World)
    (w : World) :
  user_ self = nullptr ->
  UserLogin_Delete pump GetCredential SignInWithCredential User_Delete
    fuel self w = Some (self, w, []) /\
  UserLogin_destroy pump GetCredential SignInWithCredential User_Delete
    fuel self w = Some (self, w, []).
Proof.
  intro Hu. destruct self as [a e p u l]. cbn [user_] in Hu. subst u.
  split; reflexivity.
Qed.

(** Whenever [Delete()] returns, the object holds no user and is otherwise
    unchanged, whatever happened to the deletion. *)
Theorem UserLogin_Delete_clears_user (fuel : nat)
    (self self' : UserLogin World) (w w' : World) (t : list Event) :
  UserLogin_Delete pump GetCredential SignInWithCredential User_Delete
    fuel self w = Some (self', w', t) ->
  self' = set_user self nullptr /\ user_ self' = nullptr.
Proof.
  unfold UserLogin_Delete. unfold bind at 1.
  match goal with
  | |- match ?m with _ => _ end = _ -> _ => destruct m as [[[x w1] t1]|]
  end; [|discriminate].
  unfold ret. intro H. injection H as <- _ _. split; reflexivity.
Qed.

(** [Delete()] on a user whose deletion is pending when the pump asks to
    quit: the wait ends at once, and [Delete()] returns as usual, with the
    user cleared; the quit request does not reach the caller. *)
Theorem UserLogin_Delete_quit_request (self : UserLogin World) (w : World)
    (n fuel : nat) :
  let delete_future := fst (User_Delete (user_ self) w) in
  let w1 := snd (User_Delete (user_ self) w) in
  user_ self <> nullptr ->
  still_waiting pump delete_future w1 n ->
  status delete_future (pump_n pump n w1) = kFutureStatusPending ->
  fst (pump 100 (pump_n pump n w1)) = true ->
  (n < fuel)%nat ->
  UserLogin_Delete pump GetCredential SignInWithCredential User_Delete
    fuel self w =
  Some (set_user self nullptr, snd (pump 100 (pump_n pump n w1)),
        EvLogMessage "  Calling %s..." [ArgStr (Some "User::Delete()")]
        :: repeat (EvProcessEvents 100) (S n)).
Proof.
  intros delete_future w1 Hu Hwait Hst Hq Hfuel.
  assert (Hvalid : status delete_future w1 <> kFutureStatusInvalid)
    by (apply (still_waiting_started _ pump delete_future n);
        [exact Hwait | rewrite Hst; discriminate]).
  pose proof (WaitForFuture_quits _ pump delete_future "User::Delete()"
                kAuthErrorNone (log_errors_ self) w1 n fuel
                Hwait Hst Hq Hfuel) as Hrun.
  unfold UserLogin_Delete, bind, sdk, read, ret.
  apply Z.eqb_neq in Hu. rewrite Hu.
  subst delete_future w1.
  destruct (User_Delete (user_ self) w) as [fut w1]. cbn [fst snd] in *.
  destruct (status fut w1); try congruence;
    rewrite Hrun; cbn [app]; rewrite ?app_nil_r; reflexivity.
Qed.

(** The destructor of an object that holds a user, when the deletion is
    started properly and completes after [n] quiet rounds: it turns error
    logging off first, so nothing is logged after the "Calling" line,
    whatever error the deletion ended with, and the user is cleared. *)
Theorem UserLogin_destroy_silent (self : UserLogin World) (w : World)
    (n fuel : nat) :
  let delete_future := fst (User_Delete (user_ self) w) in
  let w1 := snd (User_Delete (user_ self) w) in
  user_ self <> nullptr ->
  still_waiting pump delete_future w1 n ->
  status delete_future (pump_n pump n w1) = kFutureStatusComplete ->
  (n < fuel)%nat ->
  UserLogin_destroy pump GetCredential SignInWithCredential User_Delete
    fuel self w =
  Some (set_user (set_log_errors self false) nullptr, pump_n pump n w1,
        EvLogMessage "  Calling %s..." [ArgStr (Some "User::Delete()")]
        :: repeat (EvProcessEvents 100) n).
Proof.
  intros delete_future w1 Hu Hwait Hst Hfuel.
  assert (Hvalid : status delete_future w1 <> kFutureStatusInvalid)
    by (apply (still_waiting_started _ pump delete_future n);
        [exact Hwait | rewrite Hst; discriminate]).
  pose proof (WaitForFuture_completes _ pump delete_future "User::Delete()"
                kAuthErrorNone false w1 n fuel Hwait Hst Hfuel) as Hrun.
  cbn [completion_report] in Hrun. rewrite app_nil_r in Hrun.
  unfold UserLogin_destroy.
  apply Z.eqb_neq in Hu. rewrite Hu.
  unfold UserLogin_Delete, bind, sdk, read, ret.
  cbn [set_log_errors user_ log_errors_]. rewrite Hu.
  subst delete_future w1.
  destruct (User_Delete (user_ self) w) as [fut w1]. cbn [fst snd] in *.
  destruct (status fut w1); try congruence;
    rewrite Hrun; cbn [app]; rewrite ?app_nil_r; reflexivity.
Qed.

End UserLoginFacts.

(** ** The further helpers on the scripted worlds *)

(** A run that ended with [false] after one round: the inversion finds the
    third case. *)
Lemma WaitForFuture_inversion_run :
  exists n,
    still_waiting Scripted.pump Scripted.future
      (Scripted.start Scripted.pending [(false, Scripted.failed)]) n /\
    status Scripted.future
      (pump_n Scripted.pump n
         (Scripted.start Scripted.pending [(false, Scripted.failed)]))
    <> kFutureStatusPending.
Proof.
  destruct (WaitForFuture_inversion _ Scripted.pump Scripted.future 2
              "GetToken()" kAuthErrorNone true
              (Scripted.start Scripted.pending [(false, Scripted.failed)])
              (Scripted.start Scripted.failed []) false
              [EvLogMessage "  Calling %s..." [ArgStr (Some "GetToken()")];
               EvProcessEvents 100;
               EvLogMessage "ERROR: %s completed with error: %d, `%s`"
                 [ArgStr (Some "GetToken()"); ArgInt 1;
                  ArgStr (Some "bad password")]]
              eq_refl) as [(Hst & _) | [(n & _ & _ & _ & Hb & _) | H]].
  - discriminate Hst.
  - discriminate Hb.
  - destruct H as (n & Hwait & Hend & _). exists n. split; assumption.
Defined.

(** Signed out after one round; the last, one-second round asks to quit and
    the answer is still [false]. *)
Lemma WaitForSignOut_signed_out_run :
  WaitForSignOut Scripted.pump 2 Scripted.auth
    (Scripted.start Scripted.signed_in
       [(false, Scripted.pending); (true, Scripted.pending)]) =
  Some (false, Scripted.start Scripted.pending [],
        [EvProcessEvents 100; EvProcessEvents 1000]).
Proof.
  refine (WaitForSignOut_signed_out _ Scripted.pump Scripted.auth _ 1 2
            _ _ _).
  - intros i Hi. destruct i as [|i]; [|lia].
    split; [discriminate | reflexivity].
  - reflexivity.
  - lia.
Defined.

(** Still signed in when the pump asks to quit in the second round. *)
Lemma WaitForSignOut_quit_request_run :
  WaitForSignOut Scripted.pump 2 Scripted.auth
    (Scripted.start Scripted.signed_in
       [(false, Scripted.signed_in); (true, Scripted.signed_in)]) =
  Some (true, Scripted.start Scripted.signed_in [],
        [EvProcessEvents 100; EvProcessEvents 100]).
Proof.
  refine (WaitForSignOut_quit_request _ Scripted.pump Scripted.auth _ 1 2
            _ _ _ _).
  - intros i Hi. destruct i as [|i]; [|lia].
    split; [discriminate | reflexivity].
  - discriminate.
  - reflexivity.
  - lia.
Defined.

Lemma WaitForSignOut_inversion_run :
  reports [EvProcessEvents 100; EvProcessEvents 1000] = [].
Proof.
  exact (proj1 (WaitForSignOut_inversion _ Scripted.pump Scripted.auth 2
                  (Scripted.start Scripted.signed_in
                     [(false, Scripted.pending); (true, Scripted.pending)])
                  (Scripted.start Scripted.pending []) false
                  [EvProcessEvents 100; EvProcessEvents 1000] eq_refl)).
Defined.

Lemma Expect_bool_reports_run :
  exists r_true r_false,
    ExpectTrue "SignInAnonymouslyLastResult matches returned Future" false tt
    = Some (tt, tt, [r_true]) /\
    error_report r_true = true /\
    ExpectFalse "SignInAnonymouslyLastResult matches returned Future" false tt
    = Some (tt, tt, [r_false]) /\
    error_report r_false = false.
Proof.
  exact (Expect_bool_reports unit
           "SignInAnonymouslyLastResult matches returned Future" false tt
           eq_refl).
Defined.

Lemma ExpectStringsEqual_report_run :
  exists r,
    ExpectStringsEqual "Auth::FetchProvidersForEmail() provider"
      "password" "google.com" tt = Some (tt, tt, [r]) /\
    mentions_string (Some "password") r = true.
Proof.
  destruct (ExpectStringsEqual_report unit
              "Auth::FetchProvidersForEmail() provider"
              "password" "google.com" tt eq_refl)
    as (r & Hrun & _ & _ & Hexp).
  exists r. split; [exact Hrun|]. apply Hexp. discriminate.
Defined.

(** A code is sent, verification fails, then the automatic retrieval times
    out with a new id. *)
Lemma PhoneListener_counts_run :
  exists l t,
    for_each deliver
      [CodeSent (Credential := unit) "id-1" tt;
       VerificationFailed "no network";
       CodeAutoRetrievalTimeOut "id-2"]
      (PhoneListener_new tt) = Some (tt, l, t) /\
    num_calls_on_code_sent_ l = 1 /\
    num_calls_on_verification_failed_ l = 1 /\
    verification_id_ l = "id-2" /\
    List.length (filter error_report t) = 1%nat.
Proof.
  assert (Hn : Z.of_nat (List.length
                           [CodeSent (Credential := unit) "id-1" tt;
                            VerificationFailed "no network";
                            CodeAutoRetrievalTimeOut "id-2"]) <= INT_MAX)
    by (vm_compute; discriminate).
  destruct (PhoneListener_counts unit unit tt _ Hn)
    as (l & t & Hrun & _ & Hfail & Hsent & _ & Hid & _ & _ & Herr).
  exists l, t. repeat split; try assumption.
  apply Nat2Z.inj. exact Herr.
Defined.

Lemma ScriptedPhone_idle_rounds (msec : Z) (n : nat) :
  rounds ScriptedPhone.pump msec n
    (ScriptedPhone.start ScriptedPhone.idle []) =
  ScriptedPhone.start ScriptedPhone.idle [].
Proof.
  induction n as [|n IH]; [reflexivity | exact IH].
Qed.


(** Nothing ever arrives. *)
Lemma wait_for_code_sent_times_out_run :
  exists t,
    wait_for_code_sent ScriptedPhone.pump ScriptedPhone.now 2002 0
      (ScriptedPhone.start ScriptedPhone.idle []) =
    Some (600300,
          rounds ScriptedPhone.pump 300 2001
            (ScriptedPhone.start ScriptedPhone.idle []), t) /\
    polls t = 2001%nat.
Proof.
  destruct (wait_for_code_sent_times_out _ ScriptedPhone.pump _
              ScriptedPhone.now 2002
              (ScriptedPhone.start ScriptedPhone.idle []))
    as (t & Hrun & Hp & _).
  - intros i _. rewrite ScriptedPhone_idle_rounds. repeat split.
  - lia.
  - exists t. split; assumption.
Defined.

Lemma wait_for_code_sent_arrives_run :
  exists t,
    wait_for_code_sent ScriptedPhone.pump ScriptedPhone.now 3 0
      (ScriptedPhone.start ScriptedPhone.idle
         [(false, ScriptedPhone.idle); (false, ScriptedPhone.code_sent)]) =
    Some (600, ScriptedPhone.start ScriptedPhone.code_sent [], t) /\
    polls t = 2%nat.
Proof.
  destruct (wait_for_code_sent_arrives _ ScriptedPhone.pump _
              ScriptedPhone.now 2 3
              (ScriptedPhone.start ScriptedPhone.idle
                 [(false, ScriptedPhone.idle);
                  (false, ScriptedPhone.code_sent)]))
    as (t & Hrun & Hp & _).
  - lia.
  - intros i Hi. destruct i as [|[|i]]; [repeat split .. | lia].
  - right. right. discriminate.
  - lia.
  - exists t. split; assumption.
Defined.


Lemma UserLogin_Delete_without_user_run :
  UserLogin_Delete Scripted.pump ScriptedLogin.GetCredential
    ScriptedLogin.SignInWithCredential ScriptedLogin.User_Delete 0
    (ScriptedLogin.login nullptr true)
    (Scripted.start Scripted.pending [(true, Scripted.signed_in)]) =
  Some (ScriptedLogin.login nullptr true,
        Scripted.start Scripted.pending [(true, Scripted.signed_in)], []).
Proof.
  exact (proj1 (UserLogin_Delete_without_user _ Scripted.pump _
                  ScriptedLogin.GetCredential
                  ScriptedLogin.SignInWithCredential
                  ScriptedLogin.User_Delete 0
                  (ScriptedLogin.login nullptr true)
                  (Scripted.start Scripted.pending
                     [(true, Scripted.signed_in)]) eq_refl)).
Defined.

Lemma UserLogin_Delete_clears_user_run :
  user_ (set_user (ScriptedLogin.login 4096 true) nullptr) = nullptr.
Proof.
  refine (proj2 (UserLogin_Delete_clears_user _ Scripted.pump _
                   ScriptedLogin.GetCredential
                   ScriptedLogin.SignInWithCredential
                   ScriptedLogin.User_Delete 2
                   (ScriptedLogin.login 4096 true) _
                   (Scripted.start Scripted.pending
                      [(false, Scripted.failed)])
                   (Scripted.start Scripted.failed [])
                   [EvLogMessage "  Calling %s..."
                      [ArgStr (Some "User::Delete()")];
                    EvProcessEvents 100;
                    EvLogMessage "ERROR: %s completed with error: %d, `%s`"
                      [ArgStr (Some "User::Delete()"); ArgInt 1;
                       ArgStr (Some "bad password")]]
                   _)).
  reflexivity.
Defined.

Lemma UserLogin_Delete_quit_request_run :
  UserLogin_Delete Scripted.pump ScriptedLogin.GetCredential
    ScriptedLogin.SignInWithCredential ScriptedLogin.User_Delete 1
    (ScriptedLogin.login 4096 true)
    (Scripted.start Scripted.pending [(true, Scripted.pending)]) =
  Some (ScriptedLogin.login nullptr true,
        Scripted.start Scripted.pending [],
        [EvLogMessage "  Calling %s..." [ArgStr (Some "User::Delete()")];
         EvProcessEvents 100]).
Proof.
  refine (UserLogin_Delete_quit_request _ Scripted.pump _
            ScriptedLogin.GetCredential ScriptedLogin.SignInWithCredential
            ScriptedLogin.User_Delete (ScriptedLogin.login 4096 true)
            _ 0 1 _ _ _ _ _).
  - discriminate.
  - intros i Hi. lia.
  - reflexivity.
  - reflexivity.
  - lia.
Defined.

(** The deletion fails with code 1, and the destructor says nothing of it. *)
Lemma UserLogin_destroy_silent_run :
  UserLogin_destroy Scripted.pump ScriptedLogin.GetCredential
    ScriptedLogin.SignInWithCredential ScriptedLogin.User_Delete 2
    (ScriptedLogin.login 4096 true)
    (Scripted.start Scripted.pending [(false, Scripted.failed)]) =
  Some (ScriptedLogin.login nullptr false,
        Scripted.start Scripted.failed [],
        [EvLogMessage "  Calling %s..." [ArgStr (Some "User::Delete()")];
         EvProcessEvents 100]).
Proof.
  refine (UserLogin_destroy_silent _ Scripted.pump _
            ScriptedLogin.GetCredential ScriptedLogin.SignInWithCredential
            ScriptedLogin.User_Delete (ScriptedLogin.login 4096 true)
            _ 1 2 _ _ _ _).
  - discriminate.
  - intros i Hi. destruct i as [|i]; [split; reflexivity | lia].
  - reflexivity.
  - lia.
Defined.
